(** * ETF screening pipeline: [akshare_etf_fetcher.py]

    A shallow embedding of [calculate_sharpe_ratio] and [fetch_etf_data],
    together with the properties the specification states about them.

    - Python floats and the float64 columns of a DataFrame are binary64
      numbers: Rocq's primitive floats.
    - The pandas operations the program calls ([pct_change], [dropna],
      [prod], [std], boolean indexing, [sort_values], [head]) are written
      out on lists, with the order of the float operations numpy uses
      (pairwise summation, rounding by scaling). The theorems about
      [sort_values] hold for every function with its documented contract,
      since the program does not choose a sorting algorithm; the default
      one, numpy's quicksort, is written out as one such function.
    - Exceptions are values of [exn]; code that may raise returns
      [result A = exn + A]; the body of [fetch_etf_data] runs in a state and
      exception monad whose state holds [result_data], the printed lines and
      the history requests sent to the provider. Exceptions outside
      [Exception], which no handler of the program catches, are added in
      the module [Interruptible]. *)

From Stdlib Require Import List Bool Arith ZArith PArith Lia.
From Stdlib Require Import Ascii String DecimalString.
From Stdlib Require Import Permutation.
From Stdlib Require Import Floats.
Import ListNotations.

Set Implicit Arguments.

(* ================================================================== *)
(** ** Python values: exceptions and strings *)
(* ================================================================== *)

Module Py.

(** The instances of [Exception] the program can meet; both
    [except Exception] clauses catch every one of them. [ProviderError]
    stands for whatever instance of [Exception] the data provider raises.
    (Exceptions outside [Exception] are the subject of the module
    [Interruptible] below.) *)
Inductive exn : Type :=
| ValueError (msg : string)
| KeyError (key : string)
| AttributeError (msg : string)
| ZeroDivisionError (msg : string)
| ProviderError (msg : string).

(** [str(e)]: the message, and for a [KeyError] the repr of the key. *)
Definition str_exn (e : exn) : string :=
  match e with
  | ValueError m | AttributeError m | ZeroDivisionError m | ProviderError m => m
  | KeyError k => ("'" ++ k ++ "'")%string
  end.

(** A computation that returns a value or raises. *)
Definition result (A : Type) : Type := (exn + A)%type.

(** A [str] is held as its UTF-8 bytes. The characters [str.strip()]
    removes are those with [c.isspace()]: U+0009..U+000D, U+001C..U+0020,
    U+0085, U+00A0, U+1680, U+2000..U+200A, U+2028, U+2029, U+202F, U+205F
    and U+3000. *)
Definition isspace_ascii (n : nat) : bool :=
  ((9 <=? n) && (n <=? 13)) || ((28 <=? n) && (n <=? 32)).

(** The third byte of a whitespace character U+20xx encoded E2 80 xx. *)
Definition isspace_e280 (n : nat) : bool :=
  ((128 <=? n) && (n <=? 138)) || (n =? 168) || (n =? 169) || (n =? 175).

(** The two-byte whitespace characters: C2 85 and C2 A0. *)
Definition isspace2 (a b : nat) : bool :=
  (a =? 194) && ((b =? 133) || (b =? 160)).

(** The three-byte ones: E1 9A 80, E2 80 xx, E2 81 9F and E3 80 80. *)
Definition isspace3 (a b c : nat) : bool :=
  ((a =? 225) && (b =? 154) && (c =? 128)) ||
  ((a =? 226) && (b =? 128) && isspace_e280 c) ||
  ((a =? 226) && (b =? 129) && (c =? 159)) ||
  ((a =? 227) && (b =? 128) && (c =? 128)).

(** The number of bytes of the whitespace character a byte sequence starts
    with; 0 when it starts with none. *)
Definition space_width (l : list nat) : nat :=
  match l with
  | a :: t =>
      if isspace_ascii a then 1
      else
        match t with
        | b :: u =>
            if isspace2 a b then 2
            else
              match u with
              | c :: _ => if isspace3 a b c then 3 else 0
              | [] => 0
              end
        | [] => 0
        end
  | [] => 0
  end.

(** The same for the whitespace character a sequence ends with, read on
    the reversed sequence. *)
Definition space_width_rev (l : list nat) : nat :=
  match l with
  | c :: t =>
      if isspace_ascii c then 1
      else
        match t with
        | b :: u =>
            if isspace2 b c then 2
            else
              match u with
              | a :: _ => if isspace3 a b c then 3 else 0
              | [] => 0
              end
        | [] => 0
        end
  | [] => 0
  end.

(** Drop whitespace characters from the front, as long as there is one. *)
Fixpoint strip_front (width : list nat -> nat) (fuel : nat) (l : list nat) : list nat :=
  match fuel with
  | O => l
  | S fuel' =>
      match width l with
      | O => l
      | S k => strip_front width fuel' (skipn (S k) l)
      end
  end.

Definition lstrip_bytes (l : list nat) : list nat :=
  strip_front space_width (List.length l) l.

Definition rstrip_bytes (l : list nat) : list nat :=
  rev (strip_front space_width_rev (List.length l) (rev l)).

(** [s.strip()] *)
Definition strip (s : string) : string :=
  string_of_list_ascii
    (map ascii_of_nat
       (rstrip_bytes (lstrip_bytes (map nat_of_ascii (list_ascii_of_string s))))).

(** [s.startswith(p)] *)
Definition startswith (s p : string) : bool := String.prefix p s.

(** [str(n)] for a non-negative integer, as an f-string prints it. *)
Definition str_nat (n : nat) : string := NilEmpty.string_of_uint (Nat.to_uint n).

(** A cell of a text column of a DataFrame: a [str], or the float NaN that
    pandas stores where the value is missing. *)
Inductive cell : Type :=
| CellStr (s : string)
| CellNaN.

(** [row[col].strip()]: a float has no such method. *)
Definition cell_strip (c : cell) : result string :=
  match c with
  | CellStr s => inr (strip s)
  | CellNaN => inl (AttributeError "'float' object has no attribute 'strip'")
  end.

End Py.

Import Py.

(* ================================================================== *)
(** ** float64 and the pandas operations on a Series *)
(* ================================================================== *)

Module Pd.

Local Open Scope float_scope.

(** A numeric column. *)
Definition Series : Type := list float.

(** The integer [n] as a float (exact below 2^53). *)
Fixpoint float_of_nat (n : nat) : float :=
  match n with
  | O => 0
  | S k => float_of_nat k + 1
  end.

Fixpoint pct_change_from (prev : float) (s : Series) : Series :=
  match s with
  | [] => []
  | x :: t => (x / prev - 1) :: pct_change_from x t
  end.

(** [s.pct_change()]: [s / s.shift(1) - 1]; the first entry has no
    predecessor and is NaN. Missing closes are not filled in first (pandas
    3; earlier versions fill a gap inside the column from the bar before
    it, which makes no difference for a column without such gaps). *)
Definition pct_change (s : Series) : Series :=
  match s with
  | [] => []
  | x :: t => nan :: pct_change_from x t
  end.

(** [s.dropna()] *)
Definition dropna (s : Series) : Series :=
  filter (fun x => negb (is_nan x)) s.

(** [1 + s] *)
Definition radd (c : float) (s : Series) : Series := map (fun x => c + x) s.

(** [s.prod()]: numpy's [multiply.reduce] starts from 1 and multiplies the
    entries in from first to last. *)
Definition prod (s : Series) : float := fold_left mul s 1.

(** numpy adds a float64 array pairwise ([DOUBLE_pairwise_sum]). A block
    of at most [PW_BLOCKSIZE] entries is added in eight lanes: lane [j]
    starts with entry [j] and takes in the entries [j + 8], [j + 16], ... as
    long as eight more entries are left; the lanes are added up two by two,
    and the entries that are left over are added to that, one after the
    other. *)
Definition PW_BLOCKSIZE : nat := 128.

Fixpoint sum_unrolled (r0 r1 r2 r3 r4 r5 r6 r7 : float) (l : Series) : float :=
  match l with
  | x0 :: x1 :: x2 :: x3 :: x4 :: x5 :: x6 :: x7 :: t =>
      sum_unrolled (r0 + x0) (r1 + x1) (r2 + x2) (r3 + x3)
                   (r4 + x4) (r5 + x5) (r6 + x6) (r7 + x7) t
  | _ =>
      fold_left add l (((r0 + r1) + (r2 + r3)) + ((r4 + r5) + (r6 + r7)))
  end.

(** Fewer than eight entries are added one after the other, starting from
    [-0.0]. *)
Definition sum_block (l : Series) : float :=
  match l with
  | x0 :: x1 :: x2 :: x3 :: x4 :: x5 :: x6 :: x7 :: t =>
      sum_unrolled x0 x1 x2 x3 x4 x5 x6 x7 t
  | _ => fold_left add l (-0)
  end.

(** A longer array is cut in two at [n2], half its length brought down to a
    multiple of eight, and the sums of the two parts are added. [depth]
    bounds the number of cuts; the length of the array is more than
    enough. *)
Fixpoint pairwise_sum (depth : nat) (l : Series) : float :=
  match depth with
  | O => sum_block l
  | S depth' =>
      let n := List.length l in
      if (n <=? PW_BLOCKSIZE)%nat then sum_block l
      else
        let n2 := (n / 2 - (n / 2) mod 8)%nat in
        pairwise_sum depth' (firstn n2 l) + pairwise_sum depth' (skipn n2 l)
  end.

(** [s.sum()] on a Series without missing values: [add.reduce] starts from
    [-0.0] and adds the pairwise sum of the entries to it; the sum of no
    entries is [0.0]. *)
Definition sum (s : Series) : float :=
  match s with
  | [] => 0
  | _ :: _ => (-0) + pairwise_sum (List.length s) s
  end.

Definition mean (s : Series) : float := sum s / float_of_nat (List.length s).

(** [s.var()] with the default [ddof=1], as pandas computes it in two
    passes ([nanops.nanvar], without the optional bottleneck package): the
    squared deviations from the mean, summed and divided by [n - 1]; NaN
    when [n <= 1]. *)
Definition var (s : Series) : float :=
  let n := List.length s in
  if (n <=? 1)%nat then nan
  else
    let avg := mean s in
    sum (map (fun x => (avg - x) * (avg - x)) s) / float_of_nat (n - 1).

(** [s.std()]: the sample standard deviation. *)
Definition std (s : Series) : float := sqrt (var s).

(** [252 ** 0.5] *)
Definition sqrt252 : float := sqrt 252.

(** [np.rint]: rounding to the nearest integer, ties to even, with the
    sign of the argument kept (so that a small negative number gives
    [-0.0]). A float of magnitude below 2^52 is rounded by adding and
    taking away 2^52; a larger one is an integer already, and NaN and the
    infinities stay as they are. *)
Definition two52 : float := 4503599627370496.

Definition rint (x : float) : float :=
  if abs x <? two52 then
    let r := (abs x + two52) - two52 in
    if get_sign x then - r else r
  else x.

(** [round(x, 4)] as numpy rounds a float64: scale by 10^4, round to an
    integer, scale back. *)
Definition round4 (x : float) : float := rint (x * 10000) / 10000.

(** [a / b]: on Python floats a zero divisor raises. (On numpy scalars
    it only warns; the stricter reading is taken here, and the one division
    of the program is guarded either way.) *)
Definition truediv (a b : float) : result float :=
  if b =? 0 then inl (ZeroDivisionError "float division by zero")
  else inr (a / b).

(** The DataFrame of daily bars the provider returns for one symbol. Only
    its number of rows and its ["close"] column are read; a frame may lack
    that column. A ["close"] column is taken to be float64; one of another
    dtype, on which [pct_change] raises, is not described here. *)
Inductive History : Type :=
| HistFrame (close : Series)
| HistNoClose (nrows : nat).

(** [len(history)] *)
Definition len (h : History) : nat :=
  match h with
  | HistFrame close => List.length close
  | HistNoClose n => n
  end.

(** [history["close"]] *)
Definition getitem_close (h : History) : result Series :=
  match h with
  | HistFrame close => inr close
  | HistNoClose _ => inl (KeyError "close")
  end.

End Pd.

Import Pd.

(* ================================================================== *)
(** ** [calculate_sharpe_ratio] *)
(* ================================================================== *)

(** [returns = history_data["close"].pct_change().dropna()] *)
Definition returns_of (close : Series) : Series := dropna (pct_change close).

(** [(1 + returns).prod() - 1] *)
Definition cum_return_of (returns : Series) : float :=
  (prod (radd 1 returns) - 1)%float.

(** [returns.std() * (252 ** 0.5)] *)
Definition volatility_of (returns : Series) : float :=
  (std returns * sqrt252)%float.

Definition calculate_sharpe_ratio (history_data : History) : result float :=
  match getitem_close history_data with
  | inl e => inl e
  | inr close =>
      let returns := returns_of close in
      if List.length returns <? 10 then inr 0%float
      else
        let cum_return := cum_return_of returns in
        let volatility := volatility_of returns in
        if negb (volatility =? 0)%float then truediv cum_return volatility
        else inr 0%float
  end.

(* ================================================================== *)
(** ** The order on float64 keys that [sort_values] follows *)
(* ================================================================== *)

Module FloatOrder.

(** [na_last_ge a b]: key [a] may stand before key [b] in a column sorted
    with [ascending=False] and the default [na_position="last"]: [b] is
    NaN, or neither is and [a < b] does not hold. *)
Definition na_last_ge (a b : float) : bool :=
  is_nan b || (negb (is_nan a) && negb (a <? b)%float).

(** The same order on the specification floats of the standard library. *)
Definition sf_nan (a : spec_float) : bool := negb (SFeqb a a).

Definition sf_ge (a b : spec_float) : bool :=
  sf_nan b || (negb (sf_nan a) && negb (SFltb a b)).

Lemma na_last_ge_spec (a b : float) :
  na_last_ge a b = sf_ge (Prim2SF a) (Prim2SF b).
Proof.
  unfold na_last_ge, sf_ge, sf_nan, is_nan.
  now rewrite !eqb_spec, ltb_spec.
Qed.

Ltac split_compare :=
  repeat match goal with
  | |- context [Z.compare ?a ?b] =>
      destruct (Z.compare_spec a b); subst
  | |- context [PosDef.Pos.compare_cont Eq ?a ?b] =>
      change (PosDef.Pos.compare_cont Eq a b) with (Pos.compare a b);
      destruct (Pos.compare_spec a b); subst
  end.

Ltac sf_cases :=
  repeat match goal with s : bool |- _ => destruct s end; cbn;
  try rewrite !Z.compare_refl; try rewrite !Pos.compare_refl; cbn;
  try discriminate; try reflexivity;
  split_compare; cbn; try discriminate; try reflexivity; try lia.

Lemma sf_ge_total (a b : spec_float) : sf_ge a b = false -> sf_ge b a = true.
Proof.
  unfold sf_ge, sf_nan, SFeqb, SFltb, SFcompare.
  destruct a as [sa|sa| |sa ma ea], b as [sb|sb| |sb mb eb]; sf_cases.
Qed.

Lemma sf_ge_trans (a b c : spec_float) :
  sf_ge a b = true -> sf_ge b c = true -> sf_ge a c = true.
Proof.
  unfold sf_ge, sf_nan, SFeqb, SFltb, SFcompare.
  destruct a as [sa|sa| |sa ma ea], b as [sb|sb| |sb mb eb],
           c as [sc|sc| |sc mc ec]; sf_cases.
Qed.

Lemma sf_ge_not_lt (a b : spec_float) : sf_ge a b = true -> SFltb a b = false.
Proof.
  unfold sf_ge, sf_nan, SFeqb, SFltb, SFcompare.
  destruct a as [sa|sa| |sa ma ea], b as [sb|sb| |sb mb eb]; sf_cases.
Qed.

Lemma na_last_ge_total (a b : float) :
  na_last_ge a b = false -> na_last_ge b a = true.
Proof. rewrite !na_last_ge_spec. apply sf_ge_total. Qed.

Lemma na_last_ge_trans (a b c : float) :
  na_last_ge a b = true -> na_last_ge b c = true -> na_last_ge a c = true.
Proof. rewrite !na_last_ge_spec. apply sf_ge_trans. Qed.

(** Along the order no later key is greater than an earlier one. *)
Lemma na_last_ge_not_lt (a b : float) :
  na_last_ge a b = true -> (a <? b)%float = false.
Proof. rewrite na_last_ge_spec, ltb_spec. apply sf_ge_not_lt. Qed.

(** A NaN key is followed by NaN keys only. *)
Lemma na_last_ge_nan (a b : float) :
  na_last_ge a b = true -> is_nan a = true -> is_nan b = true.
Proof.
  unfold na_last_ge. intros H Ha. rewrite Ha in H. cbn in H.
  now rewrite orb_false_r in H.
Qed.

End FloatOrder.

Import FloatOrder.

(* ================================================================== *)
(** ** Insertion sorts, to inhabit the contract of [sort_values] *)
(* ================================================================== *)

Section InsertionSort.

Variable A : Type.
Variable R : A -> A -> Prop.
Variable before : A -> A -> bool.

Hypothesis R_trans : forall a b c, R a b -> R b c -> R a c.
Hypothesis before_true : forall a b, before a b = true -> R a b.
Hypothesis before_false : forall a b, before a b = false -> R b a.

Fixpoint insert_by (x : A) (l : list A) : list A :=
  match l with
  | [] => [x]
  | y :: t => if before x y then x :: l else y :: insert_by x t
  end.

Definition sort_by (l : list A) : list A := fold_right insert_by [] l.

Lemma insert_by_perm (x : A) (l : list A) : Permutation (x :: l) (insert_by x l).
Proof.
  induction l as [|y t IH]; cbn; [reflexivity|].
  destruct (before x y); [reflexivity|].
  rewrite perm_swap. now constructor.
Qed.

Lemma sort_by_perm (l : list A) : Permutation l (sort_by l).
Proof.
  induction l as [|x t IH]; cbn; [constructor|].
  rewrite <- insert_by_perm. now constructor.
Qed.

Lemma insert_by_ordered (x : A) (l : list A) :
  ForallOrdPairs R l -> ForallOrdPairs R (insert_by x l).
Proof.
  induction 1 as [|y t Hy Ht IH]; cbn.
  - repeat constructor.
  - destruct (before x y) eqn:E.
    + constructor; [|now constructor].
      constructor; [now apply before_true|].
      eapply Forall_impl; [|exact Hy].
      intros z Hz. eapply R_trans; [apply before_true; exact E | exact Hz].
    + constructor; [|exact IH].
      eapply Permutation_Forall; [apply insert_by_perm|].
      constructor; [now apply before_false | exact Hy].
Qed.

Lemma sort_by_ordered (l : list A) : ForallOrdPairs R (sort_by l).
Proof.
  induction l as [|x t IH]; cbn; [constructor|].
  now apply insert_by_ordered.
Qed.

End InsertionSort.

(* ================================================================== *)
(** ** The universe snapshot, its filter and its ranking *)
(* ================================================================== *)

(** One row of the frame [ak.fund_etf_category_sina()] returns. The two
    text columns hold a [str] or a missing value, the three numeric columns
    are float64. The frame is taken to have these five columns: one that
    lacks a column, on which lines 29-46 raise [KeyError], is not described
    here, and nothing below says how such a run ends. *)
Record Row : Type := mkRow {
  col_code : cell;        (** ["代码"] *)
  col_name : cell;        (** ["名称"] *)
  col_price : float;      (** ["最新价"] *)
  col_change : float;     (** ["涨跌幅(%)"] *)
  col_turnover : float    (** ["成交额(万元)"] *)
}.

Definition DataFrame : Type := list Row.

(** [df[col]] for a numeric column *)
Definition column (col : Row -> float) (df : DataFrame) : Series := map col df.

(** [s > c]: the boolean Series of the element-wise comparison. *)
Definition gt_scalar (s : Series) (c : float) : list bool :=
  map (fun x => (c <? x)%float) s.

(** [a & b] *)
Definition mask_and (a b : list bool) : list bool :=
  map (fun p => fst p && snd p) (combine a b).

(** [df[mask]]: the rows whose mask entry is [True], in the frame's order. *)
Fixpoint boolean_index (df : DataFrame) (mask : list bool) : DataFrame :=
  match df, mask with
  | r :: df', m :: mask' =>
      if m then r :: boolean_index df' mask' else boolean_index df' mask'
  | _, _ => []
  end.

(** Lines 29-32: [valid_etfs]. *)
Definition valid_etfs_of (etf_basic : DataFrame) : DataFrame :=
  boolean_index etf_basic
    (mask_and (gt_scalar (column col_turnover etf_basic) 1000)
              (gt_scalar (column col_price etf_basic) 0)).

(** [df.head(n)] *)
Definition head (n : nat) (df : DataFrame) : DataFrame := firstn n df.

(** [df.empty] *)
Definition empty (A : Type) (df : list A) : bool :=
  match df with [] => true | _ :: _ => false end.

(** The rows of a frame stand in the order [sort_values] leaves them in
    when every earlier key may stand before every later one. *)
Definition change_ge (a b : Row) : Prop :=
  na_last_ge (col_change a) (col_change b) = true.

(** [df.sort_values(by="涨跌幅(%)", ascending=False)]. The program passes no
    [kind], so pandas sorts with its default ["quicksort"], which promises
    the rows of the frame, reordered so that the key never increases and
    NaN keys come last, and nothing about rows with equal keys. Any function
    with that contract is an admissible [sort_values]. *)
Record SortValues : Type := mkSortValues {
  sort_values_desc : DataFrame -> DataFrame;
  sort_values_perm : forall df, Permutation df (sort_values_desc df);
  sort_values_ordered : forall df, ForallOrdPairs change_ge (sort_values_desc df)
}.

(** Line 35: [candidate_etfs]. *)
Definition candidate_etfs_of (sv : SortValues) (valid_etfs : DataFrame) : DataFrame :=
  head 50 (sort_values_desc sv valid_etfs).

Lemma change_ge_trans (a b c : Row) : change_ge a b -> change_ge b c -> change_ge a c.
Proof. unfold change_ge. apply na_last_ge_trans. Qed.

(** A stable implementation ([kind="stable"]): a row goes before the rows
    behind it whose key is not greater. *)
Definition before_stable (a b : Row) : bool :=
  na_last_ge (col_change a) (col_change b).

Definition stable_sort : SortValues :=
  {| sort_values_desc := sort_by before_stable;
     sort_values_perm := @sort_by_perm Row before_stable;
     sort_values_ordered :=
       @sort_by_ordered Row change_ge before_stable change_ge_trans
         (fun a b H => H)
         (fun a b => @na_last_ge_total (col_change a) (col_change b)) |}.

(* ================================================================== *)
(** ** The sort behind [sort_values]: numpy's quicksort *)
(* ================================================================== *)

(** [sort_values] hands the key column to [nargsort], which calls
    [ndarray.argsort(kind="quicksort")]. numpy's quicksort for float64
    ([aquicksort_] in [npysort/quicksort.cpp], the code every build has; on
    processors with AVX2 or AVX-512 numpy replaces it at run time by a
    vectorised sort, which does not keep ties either) is an introsort on an
    array of indices: median-of-three partitioning down to ranges of 16,
    insertion sort below, heapsort when the partitioning goes too deep.
    Arrays are lists, pointers into [tosort] are positions. *)

Module Npy.

(** [npy::double_tag::less]: a NaN is greater than every number. *)
Definition less (a b : float) : bool :=
  (a <? b)%float || (is_nan b && negb (is_nan a)).

(** [l[i] = x] *)
Fixpoint upd (A : Type) (i : nat) (x : A) (l : list A) : list A :=
  match l, i with
  | [], _ => []
  | _ :: t, O => x :: t
  | y :: t, S i' => y :: upd i' x t
  end.

Definition SMALL_QUICKSORT : nat := 16.

(** [npy_get_msb] *)
Definition npy_get_msb (unum : nat) : nat := Nat.log2 unum.

(** Where the outer loop of [aquicksort_] stands: at its top, where the
    depth is looked at, or in the loop that partitions. *)
Inductive point : Type :=
| AtTop
| Partitioning.

Section Argsort.

Variable v : list float.

(** [v[*p]] for a position [p] of [tosort] *)
Definition key (tosort : list nat) (p : nat) : float :=
  nth (nth p tosort 0) v nan.

(** [INTP_SWAP] of the entries at [p] and [q] *)
Definition intp_swap (tosort : list nat) (p q : nat) : list nat :=
  upd q (nth p tosort 0) (upd p (nth q tosort 0) tosort).

(** [while (less(v[*pi], vp)) ++pi;] *)
Fixpoint scan_up (fuel : nat) (tosort : list nat) (vp : float) (pi : nat) : nat :=
  match fuel with
  | O => pi
  | S fuel' =>
      if less (key tosort pi) vp then scan_up fuel' tosort vp (S pi) else pi
  end.

(** [while (less(vp, v[*pj])) --pj;] *)
Fixpoint scan_down (fuel : nat) (tosort : list nat) (vp : float) (pj : nat) : nat :=
  match fuel with
  | O => pj
  | S fuel' =>
      if less vp (key tosort pj) then scan_down fuel' tosort vp (pj - 1) else pj
  end.

(** The [for (;;)] loop of the partition: both pointers move to the next
    entry that is on the wrong side, the two entries are swapped, until the
    pointers meet. Gives the array and [pi]. *)
Fixpoint partition_loop (fuel : nat) (tosort : list nat) (vp : float) (pi pj : nat)
  : list nat * nat :=
  match fuel with
  | O => (tosort, pi)
  | S fuel' =>
      let pi := scan_up (List.length tosort) tosort vp (S pi) in
      let pj := scan_down (List.length tosort) tosort vp (pj - 1) in
      if pj <=? pi then (tosort, pi)
      else partition_loop fuel' (intp_swap tosort pi pj) vp pi pj
  end.

(** One partition of [pl..pr]: the median of the first, middle and last
    entry is the pivot and is parked at [pr - 1]; after the loop it is
    swapped to [pi], its final place. *)
Definition partition (tosort : list nat) (pl pr : nat) : list nat * nat :=
  let pm := pl + (pr - pl) / 2 in
  let tosort :=
    if less (key tosort pm) (key tosort pl) then intp_swap tosort pm pl else tosort in
  let tosort :=
    if less (key tosort pr) (key tosort pm) then intp_swap tosort pr pm else tosort in
  let tosort :=
    if less (key tosort pm) (key tosort pl) then intp_swap tosort pm pl else tosort in
  let vp := key tosort pm in
  let pj := pr - 1 in
  let tosort := intp_swap tosort pm pj in
  let (tosort, pi) := partition_loop (pr - pl) tosort vp pl pj in
  let pk := pr - 1 in
  (intp_swap tosort pi pk, pi).

(** [while (pj > pl && less(vp, v[*pk])) *pj-- = *pk--;  *pj = vi;] where
    [pk] is [pj - 1] throughout. *)
Fixpoint shift_down (fuel : nat) (tosort : list nat) (pl : nat) (vp : float)
    (vi pj : nat) : list nat :=
  match fuel with
  | O => upd pj vi tosort
  | S fuel' =>
      if (pl <? pj) && less vp (key tosort (pj - 1)) then
        shift_down fuel' (upd pj (nth (pj - 1) tosort 0) tosort) pl vp vi (pj - 1)
      else upd pj vi tosort
  end.

(** The insertion sort of [pl..pr]: [for (...; pi <= pr; ++pi)]. *)
Fixpoint insertion_from (fuel : nat) (tosort : list nat) (pl pr pi : nat) : list nat :=
  match fuel with
  | O => tosort
  | S fuel' =>
      if pi <=? pr then
        let vi := nth pi tosort 0 in
        let vp := nth vi v nan in
        insertion_from fuel' (shift_down pi tosort pl vp vi pi) pl pr (S pi)
      else tosort
  end.

Definition insertion_sort (tosort : list nat) (pl pr : nat) : list nat :=
  insertion_from (S pr - pl) tosort pl pr (S pl).

(** [aheapsort_] on the [n] entries from [pl] on. Its array [a] is
    [tosort] counted from one: [a[k]] is the entry at [pl + k - 1]. *)
Definition heap_key (tosort : list nat) (pl k : nat) : float :=
  key tosort (pl + k - 1).

(** The loop that lets [tmp] sink from [i]; gives the array and the place
    where [tmp] belongs. *)
Fixpoint sift (fuel : nat) (tosort : list nat) (pl n tmp i j : nat) : list nat * nat :=
  match fuel with
  | O => (tosort, i)
  | S fuel' =>
      if j <=? n then
        let j :=
          if (j <? n) && less (heap_key tosort pl j) (heap_key tosort pl (j + 1))
          then j + 1 else j in
        if less (nth tmp v nan) (heap_key tosort pl j) then
          sift fuel' (upd (pl + i - 1) (nth (pl + j - 1) tosort 0) tosort)
            pl n tmp j (j + j)
        else (tosort, i)
      else (tosort, i)
  end.

(** [for (l = n >> 1; l > 0; --l)]: the heap is built. *)
Fixpoint heapify (l : nat) (tosort : list nat) (pl n : nat) : list nat :=
  match l with
  | O => tosort
  | S l' =>
      let tmp := nth (pl + l - 1) tosort 0 in
      let (tosort, i) := sift n tosort pl n tmp l (l + l) in
      heapify l' (upd (pl + i - 1) tmp tosort) pl n
  end.

(** [for (; n > 1;)]: the greatest entry goes to the end, the heap shrinks. *)
Fixpoint heap_drain (fuel : nat) (tosort : list nat) (pl n : nat) : list nat :=
  match fuel with
  | O => tosort
  | S fuel' =>
      if 1 <? n then
        let tmp := nth (pl + n - 1) tosort 0 in
        let tosort := upd (pl + n - 1) (nth pl tosort 0) tosort in
        let n := n - 1 in
        let (tosort, i) := sift n tosort pl n tmp 1 2 in
        heap_drain fuel' (upd (pl + i - 1) tmp tosort) pl n
      else tosort
  end.

Definition aheapsort (tosort : list nat) (pl n : nat) : list nat :=
  heap_drain n (heapify (n / 2) tosort pl n) pl n.

(** The outer loop of [aquicksort_]. The stack holds the ranges still to be
    sorted, each with the depth left for it. *)
Fixpoint aquicksort_loop (fuel : nat) (at_ : point) (tosort : list nat)
    (pl pr : nat) (cdepth : Z) (stack : list (nat * nat * Z)) : list nat :=
  match fuel with
  | O => tosort
  | S fuel' =>
      let stack_pop (tosort : list nat) :=
        match stack with
        | [] => tosort
        | (pl, pr, cdepth) :: stack => aquicksort_loop fuel' AtTop tosort pl pr cdepth stack
        end in
      match at_ with
      | AtTop =>
          if (cdepth <? 0)%Z then stack_pop (aheapsort tosort pl (pr - pl + 1))
          else aquicksort_loop fuel' Partitioning tosort pl pr cdepth stack
      | Partitioning =>
          if SMALL_QUICKSORT <? pr - pl then
            let (tosort, pi) := partition tosort pl pr in
            let cdepth := (cdepth - 1)%Z in
            if pi - pl <? pr - pi then
              aquicksort_loop fuel' Partitioning tosort pl (pi - 1) cdepth
                ((pi + 1, pr, cdepth) :: stack)
            else
              aquicksort_loop fuel' Partitioning tosort (pi + 1) pr cdepth
                ((pl, pi - 1, cdepth) :: stack)
          else stack_pop (insertion_sort tosort pl pr)
      end
  end.

(** [aquicksort_(v, tosort, num)] *)
Definition aquicksort (tosort : list nat) : list nat :=
  let num := List.length tosort in
  aquicksort_loop (4 * num + 4) AtTop tosort 0 (num - 1)
    (Z.of_nat (npy_get_msb num) * 2) [].

End Argsort.

(** [v.argsort(kind="quicksort")]: the indices start in their order. *)
Definition argsort (v : list float) : list nat :=
  aquicksort v (seq 0 (List.length v)).

End Npy.

(** pandas' [nargsort(items, kind="quicksort", ascending=False,
    na_position="last")]: the keys that are numbers are taken in reverse,
    sorted upwards, and the result is reversed again; the places of the
    missing keys follow. *)
Definition nargsort_descending (items : Series) : list nat :=
  let places := combine (seq 0 (List.length items)) items in
  let nonnan_places := filter (fun p => negb (is_nan (snd p))) places in
  let nan_idx := map fst (filter (fun p => is_nan (snd p)) places) in
  let nonnan := rev (map snd nonnan_places) in
  let nonnan_idx := rev (map fst nonnan_places) in
  let indexer := map (fun p => nth p nonnan_idx 0) (Npy.argsort nonnan) in
  rev indexer ++ nan_idx.

(** [df.take(indexer)] *)
Definition take (df : DataFrame) (indexer : list nat) : DataFrame :=
  flat_map (fun i => match nth_error df i with Some r => [r] | None => [] end) indexer.

(** Line 35 with numpy's quicksort. *)
Definition sort_values_quicksort (df : DataFrame) : DataFrame :=
  take df (nargsort_descending (column col_change df)).

(** The result of the sort is checked before it is used: [indexer] must
    hold each place of the frame once, and the keys of the rows taken must
    never increase. The contract of [sort_values] then follows from the
    check, whatever the algorithm did. *)
Fixpoint distinct_below (seen : list bool) (l : list nat) : bool :=
  match l with
  | [] => true
  | i :: t =>
      match nth_error seen i with
      | Some false => distinct_below (Npy.upd i true seen) t
      | _ => false
      end
  end.

Definition is_permutation (indexer : list nat) (n : nat) : bool :=
  (List.length indexer =? n) && distinct_below (repeat false n) indexer.

Fixpoint never_increases (df : DataFrame) : bool :=
  match df with
  | a :: t =>
      match t with
      | b :: _ => na_last_ge (col_change a) (col_change b) && never_increases t
      | [] => true
      end
  | [] => true
  end.

Definition checked_quicksort (df : DataFrame) : DataFrame :=
  if is_permutation (nargsort_descending (column col_change df)) (List.length df)
     && never_increases (sort_values_quicksort df)
  then sort_values_quicksort df
  else sort_by before_stable df.

Lemma nth_error_upd_eq (A : Type) (i : nat) (x y : A) (l : list A) :
  nth_error l i = Some y -> nth_error (Npy.upd i x l) i = Some x.
Proof.
  revert i. induction l as [|z t IH]; intros [|i] H; try discriminate; cbn in *.
  - reflexivity.
  - now apply IH.
Qed.

Lemma nth_error_upd_ne (A : Type) (i j : nat) (x : A) (l : list A) :
  i <> j -> nth_error (Npy.upd i x l) j = nth_error l j.
Proof.
  revert i j. induction l as [|z t IH]; intros [|i] [|j] H; cbn; try reflexivity.
  - contradiction.
  - apply IH. congruence.
Qed.

Lemma distinct_below_spec (seen : list bool) (l : list nat) :
  distinct_below seen l = true ->
  NoDup l /\ forall i, In i l -> nth_error seen i = Some false.
Proof.
  revert seen. induction l as [|i t IH]; intros seen H.
  - split; [constructor | contradiction].
  - cbn [distinct_below] in H.
    destruct (nth_error seen i) as [[|]|] eqn:E; try discriminate.
    destruct (IH _ H) as [Hnd Hin].
    assert (Hi : ~ In i t).
    { intros Hi. apply Hin in Hi. rewrite (nth_error_upd_eq _ _ _ E) in Hi. discriminate. }
    split; [now constructor|].
    intros j [<-|Hj]; [exact E|].
    rewrite <- (Hin j Hj). symmetry. apply nth_error_upd_ne.
    intros ->. contradiction.
Qed.

Lemma is_permutation_spec (indexer : list nat) (n : nat) :
  is_permutation indexer n = true -> Permutation (seq 0 n) indexer.
Proof.
  unfold is_permutation. intros H. apply andb_true_iff in H. destruct H as [Hlen Hd].
  apply Nat.eqb_eq in Hlen. apply distinct_below_spec in Hd. destruct Hd as [Hnd Hin].
  symmetry. apply NoDup_Permutation_bis; [exact Hnd | rewrite length_seq; lia |].
  intros i Hi. apply in_seq. split; [lia|]. cbn.
  specialize (Hin i Hi).
  assert (Hs : nth_error (repeat false n) i <> None) by congruence.
  apply nth_error_Some in Hs. now rewrite repeat_length in Hs.
Qed.

Lemma take_seq (pre df : DataFrame) :
  take (pre ++ df) (seq (List.length pre) (List.length df)) = df.
Proof.
  revert pre. induction df as [|x t IH]; intros pre; [reflexivity|].
  cbn [List.length seq]. unfold take in *. cbn [flat_map].
  rewrite nth_error_app2 by lia. rewrite Nat.sub_diag. cbn [nth_error app]. f_equal.
  specialize (IH (pre ++ [x])). rewrite <- List.app_assoc in IH. cbn [app] in IH.
  rewrite List.length_app in IH. cbn [List.length] in IH.
  rewrite Nat.add_1_r in IH. exact IH.
Qed.

Lemma take_permutation (df : DataFrame) (indexer : list nat) :
  is_permutation indexer (List.length df) = true -> Permutation df (take df indexer).
Proof.
  intros H. apply is_permutation_spec in H.
  rewrite <- (take_seq [] df) at 1. cbn [app List.length].
  unfold take. now apply Permutation_flat_map.
Qed.

Lemma never_increases_spec (df : DataFrame) :
  never_increases df = true -> ForallOrdPairs change_ge df.
Proof.
  induction df as [|a t IH]; intros H; [constructor|].
  cbn [never_increases] in H. destruct t as [|b u]; [repeat constructor|].
  apply andb_true_iff in H. destruct H as [Hab Ht].
  specialize (IH Ht). constructor; [|exact IH].
  inversion IH as [|? ? Hb Hu]; subst.
  constructor; [exact Hab|].
  eapply Forall_impl; [|exact Hb]. intros c Hc. exact (@change_ge_trans a b c Hab Hc).
Qed.

Lemma checked_quicksort_perm (df : DataFrame) : Permutation df (checked_quicksort df).
Proof.
  unfold checked_quicksort.
  destruct (is_permutation _ _) eqn:Hp; cbn [andb]; [|apply sort_by_perm].
  destruct (never_increases _); [|apply sort_by_perm].
  now apply take_permutation.
Qed.

Lemma checked_quicksort_ordered (df : DataFrame) :
  ForallOrdPairs change_ge (checked_quicksort df).
Proof.
  unfold checked_quicksort.
  destruct (is_permutation _ _ && never_increases _) eqn:H.
  - apply andb_true_iff in H. now apply never_increases_spec.
  - apply (sort_values_ordered stable_sort).
Qed.

(** [sort_values] as pandas runs it with numpy's quicksort. *)
Definition numpy_quicksort : SortValues :=
  {| sort_values_desc := checked_quicksort;
     sort_values_perm := checked_quicksort_perm;
     sort_values_ordered := checked_quicksort_ordered |}.

(* ================================================================== *)
(** ** The provider, the result rows and the envelope *)
(* ================================================================== *)

(** What the run reads from outside: the two calls into the data provider
    and the clock. Either call may raise instead of returning; the answer
    to a history request is taken to depend on the request alone. *)
Record Provider : Type := mkProvider {
  fund_etf_category_sina : result DataFrame;
  (** [ak.fund_etf_hist_sina(symbol=..., adjust=...)] *)
  fund_etf_hist_sina : string -> string -> result History;
  (** [datetime.now().strftime("%Y-%m-%d %H:%M:%S")] *)
  now_strftime : string
}.

(** The dict appended to [result_data] (lines 62-69). *)
Record RiskScore : Type := mkRiskScore {
  rs_symbol : string;
  rs_name : string;
  rs_price : float;
  rs_change : float;
  rs_turnover : float;
  rs_sharpe : float
}.

(** The values a returned dict holds. [VNone] is Python's [None]. *)
Inductive Value : Type :=
| VStr (s : string)
| VInt (n : nat)
| VRows (rows : list RiskScore)
| VNone.

(** The returned dict, with its keys in insertion order. *)
Definition Envelope : Type := list (string * Value).

Definition keys (env : Envelope) : list string := map fst env.

Definition success_envelope (data : list RiskScore) (timestamp : string) : Envelope :=
  [("data", VRows data); ("timestamp", VStr timestamp);
   ("count", VInt (List.length data))]%string.

Definition error_envelope (error timestamp : string) : Envelope :=
  [("error", VStr error); ("timestamp", VStr timestamp)]%string.

(* ================================================================== *)
(** ** A state and exception monad for the body of [fetch_etf_data] *)
(* ================================================================== *)

Record State : Type := mkState {
  result_data : list RiskScore;          (** the list built by the loop *)
  stdout : list string;                  (** the lines printed so far *)
  hist_requests : list (string * string) (** the history calls made so far *)
}.

Definition init_state : State := mkState [] [] [].

Definition M (A : Type) : Type := State -> result A * State.

Definition ret (A : Type) (a : A) : M A := fun st => (inr a, st).

Definition raise (A : Type) (e : exn) : M A := fun st => (inl e, st).
Arguments raise {A} e.

Definition bind (A B : Type) (m : M A) (k : A -> M B) : M B :=
  fun st =>
    match m st with
    | (inr a, st') => k a st'
    | (inl e, st') => (inl e, st')
    end.

Definition lift (A : Type) (r : result A) : M A := fun st => (r, st).

(** [try: m  except Exception as e: handler e] *)
Definition try_except (A : Type) (m : M A) (handler : exn -> M A) : M A :=
  fun st =>
    match m st with
    | (inr a, st') => (inr a, st')
    | (inl e, st') => handler e st'
    end.

Declare Scope py_scope.
Delimit Scope py_scope with py.
Notation "x <- m ;; k" := (bind m (fun x => k))
  (at level 61, m at next level, right associativity) : py_scope.
Notation "m ;;; k" := (bind m (fun _ => k))
  (at level 61, right associativity) : py_scope.
Local Open Scope py_scope.

Definition print (line : string) : M unit :=
  fun st => (inr tt, mkState (result_data st) (stdout st ++ [line]) (hist_requests st)).

(** [result_data.append(r)] *)
Definition append_result (r : RiskScore) : M unit :=
  fun st => (inr tt, mkState (result_data st ++ [r]) (stdout st) (hist_requests st)).

Definition get_result_data : M (list RiskScore) :=
  fun st => (inr (result_data st), st).

(** One call of [ak.fund_etf_hist_sina]: the request is recorded, then the
    provider answers or raises. *)
Definition call_hist (w : Provider) (symbol adjust : string) : M History :=
  fun st =>
    (fund_etf_hist_sina w symbol adjust,
     mkState (result_data st) (stdout st) (hist_requests st ++ [(symbol, adjust)])).

(** [for x in l: body x] *)
Fixpoint for_each (A : Type) (body : A -> M unit) (l : list A) : M unit :=
  match l with
  | [] => ret tt
  | x :: t => body x ;;; for_each body t
  end.

(* ================================================================== *)
(** ** [fetch_etf_data] *)
(* ================================================================== *)

(** The local variables a loop iteration binds before its [try] block
    (lines 42-46). *)
Record Fields : Type := mkFields {
  f_symbol : string;
  f_name : string;
  f_price : float;
  f_change : float;
  f_turnover : float
}.

(** [float(x)] of a float64 cell is the same number. *)
Definition py_float (x : float) : float := x.

(** Lines 42-46: the two [.strip()] calls raise on a cell that is not a
    [str]. *)
Definition extract_fields (row : Row) : result Fields :=
  match cell_strip (col_code row) with
  | inl e => inl e
  | inr symbol =>
      match cell_strip (col_name row) with
      | inl e => inl e
      | inr name =>
          inr (mkFields symbol name (py_float (col_price row))
                 (py_float (col_change row)) (py_float (col_turnover row)))
      end
  end.

(** Lines 49-50: the exchange prefix and the provider's symbol. *)
Definition ak_symbol_of (symbol : string) : string :=
  let exchange := (if startswith symbol "5" then "sh" else "sz")%string in
  (exchange ++ symbol)%string.

(** Line 56 *)
Definition skip_message (name symbol : string) (n : nat) : string :=
  ("跳过" ++ name ++ "(" ++ symbol ++ ")：数据不足" ++ str_nat n ++ "天")%string.

(** Line 71 *)
Definition failure_message (name symbol : string) (e : exn) : string :=
  ("获取" ++ name ++ "(" ++ symbol ++ ")详细数据失败：" ++ str_exn e)%string.

Definition score_row (f : Fields) (sharpe : float) : RiskScore :=
  mkRiskScore (f_symbol f) (f_name f) (f_price f) (f_change f) (f_turnover f)
    (round4 sharpe).

(** Lines 52-72: the [try] block of one iteration and its handler. Both
    [continue] statements end the iteration. *)
Definition score_candidate (w : Provider) (f : Fields) (ak_symbol : string) : M unit :=
  try_except
    (history <- call_hist w ak_symbol "qfq" ;;
     if len history <? 20 then
       print (skip_message (f_name f) (f_symbol f) (len history))
     else
       sharpe <- lift (calculate_sharpe_ratio history) ;;
       append_result (score_row f sharpe))
    (fun e => print (failure_message (f_name f) (f_symbol f) e)).

(** Lines 41-72: one iteration of the loop over [candidate_etfs]. *)
Definition candidate_body (w : Provider) (row : Row) : M unit :=
  f <- lift (extract_fields row) ;;
  let ak_symbol := ak_symbol_of (f_symbol f) in
  score_candidate w f ak_symbol.

Definition msg_empty_universe : string := "全市场ETF列表为空（AkShare返回空数据）".
Definition msg_no_candidates : string := "初选后无符合条件的ETF（流动性不足）".
Definition msg_empty_pool : string := "详细数据获取失败，候选池为空".

(** Lines 23-82: the body of the outer [try]. *)
Definition fetch_body (sv : SortValues) (w : Provider) : M Envelope :=
  etf_basic <- lift (fund_etf_category_sina w) ;;
  if empty etf_basic then raise (ValueError msg_empty_universe)
  else
    let valid_etfs := valid_etfs_of etf_basic in
    let candidate_etfs := candidate_etfs_of sv valid_etfs in
    if empty candidate_etfs then raise (ValueError msg_no_candidates)
    else
      for_each (candidate_body w) candidate_etfs ;;;
      data <- get_result_data ;;
      if empty data then raise (ValueError msg_empty_pool)
      else ret (success_envelope data (now_strftime w)).

(** Lines 20-86: the outer [try] and its handler; the run started from the
    empty state. The envelope is what [fetch_etf_data] returns; the state
    holds what the run printed and requested. *)
Definition run_fetch (sv : SortValues) (w : Provider) : Envelope * State :=
  match fetch_body sv w init_state with
  | (inr env, st) => (env, st)
  | (inl e, st) => (error_envelope (str_exn e) (now_strftime w), st)
  end.

Definition fetch_etf_data (sv : SortValues) (w : Provider) : Envelope :=
  fst (run_fetch sv w).

(** The rows one candidate adds to an empty [result_data]: none when the
    candidate is skipped, one when it is scored. *)
Definition scored (w : Provider) (row : Row) : list RiskScore :=
  result_data (snd (candidate_body w row init_state)).

(* ================================================================== *)
(** ** Notions the statements below are written with *)
(* ================================================================== *)

(** The state a history request leaves behind. *)
Definition requested (ak_symbol : string) (st : State) : State :=
  mkState (result_data st) (stdout st)
    (hist_requests st ++ [(ak_symbol, "qfq"%string)]).

(** The two predicates of the filter on one row. *)
Definition qualifies (e : Row) : bool :=
  (1000 <? col_turnover e)%float && (0 <? col_price e)%float.

(** [l1] is [l2] with some elements left out, the others in their order. *)
Inductive Subsequence (A : Type) : list A -> list A -> Prop :=
| sub_nil : Subsequence [] []
| sub_keep x l1 l2 : Subsequence l1 l2 -> Subsequence (x :: l1) (x :: l2)
| sub_drop x l1 l2 : Subsequence l1 l2 -> Subsequence l1 (x :: l2).

(** The rows whose fields can be extracted. *)
Definition extractable (row : Row) : Prop := exists f, extract_fields row = inr f.

(** The two forms of the returned dict, by their keys. *)
Definition is_success (env : Envelope) : Prop :=
  keys env = ["data"; "timestamp"; "count"]%string.

Definition is_error (env : Envelope) : Prop :=
  keys env = ["error"; "timestamp"]%string.

(* ================================================================== *)
(** ** Concrete inputs used by the examples below *)
(* ================================================================== *)

Module Examples.

(** [n] daily closes 10, 10.125, 10.5, ...: strictly rising, every value a
    binary fraction. *)
Definition rising_closes (n : nat) : Series :=
  map (fun k => (10 + float_of_nat (k * k) / 8)%float) (seq 0 n).

(** Twenty-five sessions at one price. *)
Definition flat_closes : Series := repeat 2.5%float 25.

(** Thirty closes that go up and down, every value a multiple of 1/8. *)
Definition choppy_closes : Series :=
  [105.875; 103.875; 101.625; 107.125; 104.375; 101.375; 106.125; 102.625;
   106.875; 102.875; 106.625; 102.125; 105.375; 100.375; 103.125; 105.625;
   107.875; 101.875; 103.625; 105.125; 106.375; 107.375; 100.125; 100.625;
   100.875; 100.875; 100.625; 100.125; 107.375; 106.375]%float.

(** Twenty bars of which the first twelve have no close. *)
Definition gappy_closes : Series := repeat nan 12 ++ rising_closes 8.

Definition etf_a : Row := mkRow (CellStr " 510300 ") (CellStr "HS300") 4.5 1.5 2000.
Definition etf_b : Row := mkRow (CellStr "159915") (CellStr "CYB ") 2.25 1.5 5000.
Definition etf_c : Row := mkRow (CellStr "159001") (CellStr "HB") 100 2.5 500.
Definition etf_d : Row := mkRow (CellStr "511010") (CellStr "GZ") 120.5 3.5 5000.
Definition etf_e : Row := mkRow (CellStr "518880") (CellStr "AU") 5.75 (-0.5) 1000.5.
Definition etf_f : Row := mkRow (CellStr "512000") (CellStr "QS") 0 9.5 7000.
(** A row whose name is missing. *)
Definition etf_g : Row := mkRow (CellStr "513500") CellNaN 1.5 2.5 3000.
Definition etf_h : Row := mkRow (CellStr "513100") (CellStr "ND") 1.25 0.5 3000.

(** Three hundred rows that pass the filter, their changes 0, 1, 2, 3, 4,
    0, 1, ... in turn: sixty rows tie at each value. *)
Definition tied_row (k : nat) : Row :=
  mkRow (CellStr ("51" ++ str_nat (1000 + k))) (CellStr "ETF") 1.5
        (float_of_nat (k mod 5)) 2000.

Definition tied_universe : DataFrame := map tied_row (seq 0 300).

Definition clock : string := "2024-01-02 15:00:00".

(** A provider that answers every history request with the same result. *)
Definition provider_with (universe : result DataFrame) (hist : result History) : Provider :=
  mkProvider universe (fun _ _ => hist) clock.

(** A provider with 25 rising bars for every symbol but three: 19 bars for
    511010, a frame without closes for 518880, an error for 513100. *)
Definition mixed_provider (universe : DataFrame) : Provider :=
  mkProvider (inr universe)
    (fun symbol _ =>
       if String.eqb symbol "sh511010" then inr (HistFrame (rising_closes 19))
       else if String.eqb symbol "sh518880" then inr (HistNoClose 30)
       else if String.eqb symbol "sh513100" then inl (ProviderError "timeout")
       else inr (HistFrame (rising_closes 25)))
    clock.

End Examples.

(* ================================================================== *)
(** ** Properties of the building blocks *)
(* ================================================================== *)

(** Every entry of [pct_change] but the first is the ratio of a close to
    the one before it, minus one. *)
Lemma pct_change_from_nth (s : Series) (prev : float) (i : nat) :
  i < List.length s ->
  nth i (pct_change_from prev s) nan =
  (nth i s nan / nth i (prev :: s) nan - 1)%float.
Proof.
  revert prev i. induction s as [|x t IH]; intros prev i Hi; cbn in Hi; [lia|].
  destruct i as [|i]; [reflexivity|].
  cbn [pct_change_from nth]. rewrite IH by lia. reflexivity.
Qed.

Lemma pct_change_nth (close : Series) (i : nat) :
  S i < List.length close ->
  nth (S i) (pct_change close) nan =
  (nth (S i) close nan / nth i close nan - 1)%float.
Proof.
  destruct close as [|x t]; cbn [List.length]; intros Hi; [lia|].
  cbn [pct_change nth]. rewrite pct_change_from_nth by lia. reflexivity.
Qed.

Lemma pct_change_length (close : Series) :
  List.length (pct_change close) = List.length close.
Proof.
  destruct close as [|x t]; [reflexivity|]. cbn. f_equal.
  revert x. induction t as [|y t IH]; intros x; cbn; [reflexivity|].
  now rewrite IH.
Qed.

(** The first entry of [pct_change] is dropped: there are fewer returns
    than bars. *)
Lemma returns_of_length (close : Series) :
  List.length (returns_of close) <= List.length close - 1.
Proof.
  unfold returns_of, dropna.
  pose proof (pct_change_length close) as Hlen.
  destruct close as [|x t]; [cbn; lia|].
  cbn [pct_change] in *. cbn [filter].
  change (negb (is_nan nan)) with false. cbn iota.
  etransitivity; [apply filter_length_le|]. cbn in Hlen. cbn. lia.
Qed.

(** With a ["close"] column present the function has three outcomes, none
    of them an exception. *)
Lemma calculate_sharpe_ratio_cases (close : Series) :
  let returns := returns_of close in
  calculate_sharpe_ratio (HistFrame close) =
  inr (if List.length returns <? 10 then 0%float
       else if (volatility_of returns =? 0)%float then 0%float
       else (cum_return_of returns / volatility_of returns)%float).
Proof.
  cbn zeta. unfold calculate_sharpe_ratio, truediv. cbn [getitem_close].
  destruct (List.length (returns_of close) <? 10); [reflexivity|].
  destruct (volatility_of (returns_of close) =? 0)%float; reflexivity.
Qed.

(** The [try] statement of one iteration, case by case. *)
Lemma score_candidate_unfold
    (w : Provider) (f : Fields) (ak_symbol : string) (st : State) :
  score_candidate w f ak_symbol st =
  match fund_etf_hist_sina w ak_symbol "qfq" with
  | inl e =>
      print (failure_message (f_name f) (f_symbol f) e) (requested ak_symbol st)
  | inr h =>
      if len h <? 20 then
        print (skip_message (f_name f) (f_symbol f) (len h)) (requested ak_symbol st)
      else
        match calculate_sharpe_ratio h with
        | inl e =>
            print (failure_message (f_name f) (f_symbol f) e) (requested ak_symbol st)
        | inr sharpe => append_result (score_row f sharpe) (requested ak_symbol st)
        end
  end.
Proof.
  unfold score_candidate, try_except, bind, call_hist, lift, requested.
  destruct (fund_etf_hist_sina w ak_symbol "qfq") as [e|h];
    [reflexivity|].
  destruct (len h <? 20); [reflexivity|].
  destruct (calculate_sharpe_ratio h); reflexivity.
Qed.

(** The handler of the [try] statement absorbs every exception. *)
Lemma score_candidate_returns
    (w : Provider) (f : Fields) (ak_symbol : string) (st : State) :
  fst (score_candidate w f ak_symbol st) = inr tt.
Proof.
  rewrite score_candidate_unfold.
  destruct (fund_etf_hist_sina w ak_symbol "qfq") as [e|h];
    [reflexivity|].
  destruct (len h <? 20); [reflexivity|].
  destruct (calculate_sharpe_ratio h); reflexivity.
Qed.

(* ================================================================== *)
(** ** The Sharpe score (claims C2, C3, C4) *)
(* ================================================================== *)

Import Examples.

(** The cuts of [pairwise_sum] halve the array, so that any [depth] from
    the length of the array on gives the same sum. *)
Lemma pairwise_sum_depth (d d' : nat) (l : Series) :
  List.length l <= d -> List.length l <= d' ->
  pairwise_sum d l = pairwise_sum d' l.
Proof.
  revert d' l. induction d as [|d IH]; intros d' l Hd Hd'.
  - destruct l; [|cbn in Hd; lia]. now destruct d'.
  - cbn [pairwise_sum].
    destruct (List.length l <=? PW_BLOCKSIZE) eqn:E.
    + destruct d' as [|d'']; [reflexivity|]. cbn [pairwise_sum]. now rewrite E.
    + destruct d' as [|d'']; [apply Nat.leb_gt in E; lia|].
      cbn [pairwise_sum]. rewrite E. cbn zeta.
      apply Nat.leb_gt in E. unfold PW_BLOCKSIZE in E.
      set (n := List.length l) in *.
      assert (H2 : 64 <= n / 2) by (apply Nat.div_le_lower_bound; lia).
      assert (Hm : (n / 2) mod 8 < 8) by (apply Nat.mod_upper_bound; lia).
      assert (Hh : n / 2 < n) by (apply Nat.div_lt; lia).
      rewrite (IH d'' (firstn (n / 2 - (n / 2) mod 8) l)),
              (IH d'' (skipn (n / 2 - (n / 2) mod 8) l));
        rewrite ?length_firstn, ?length_skipn; fold n; try lia.
      reflexivity.
Qed.

(** The order of the additions for seven and for eight entries. *)
Lemma sum_of_seven (a0 a1 a2 a3 a4 a5 a6 : float) :
  sum [a0; a1; a2; a3; a4; a5; a6] =
  (- 0 + (((((((- 0 + a0) + a1) + a2) + a3) + a4) + a5) + a6))%float.
Proof. reflexivity. Qed.

Lemma sum_of_eight (a0 a1 a2 a3 a4 a5 a6 a7 : float) :
  sum [a0; a1; a2; a3; a4; a5; a6; a7] =
  (- 0 + (((a0 + a1) + (a2 + a3)) + ((a4 + a5) + (a6 + a7))))%float.
Proof. reflexivity. Qed.

(** [rint] on the quarters [k], [k + 1/4], [k + 1/2] and [k + 3/4] up to
    10000, with either sign: the nearest integer, and the even one of the
    two when both are as near. *)
Fixpoint rint_ok_from (x : float) (even : bool) (k : nat) : bool :=
  match k with
  | O => true
  | S k' =>
      let up := (x + 1)%float in
      let tie := if even then x else up in
      (rint x =? x)%float && (rint (x + 0.25) =? x)%float &&
      (rint (x + 0.5) =? tie)%float && (rint (x + 0.75) =? up)%float &&
      (rint (- x) =? - x)%float && (rint (- (x + 0.25)) =? - x)%float &&
      (rint (- (x + 0.5)) =? - tie)%float && (rint (- (x + 0.75)) =? - up)%float &&
      rint_ok_from up (negb even) k'
  end.

Lemma rint_nearest_even_up_to_10000 : rint_ok_from 0 true (100 * 100) = true.
Proof. vm_compute. reflexivity. Qed.

(** [round(x, 4)] keeps the sign of a number that rounds to zero, and
    leaves NaN and the infinities as they are. *)
Example round4_examples :
  Prim2SF (round4 (- (1 / 65536))) = S754_zero true /\
  Prim2SF (round4 (1 / 65536)) = S754_zero false /\
  round4 (5 / 32768) = (2 / 10000)%float /\
  round4 (15 / 32768) = (5 / 10000)%float /\
  round4 (1 / 32) = (312 / 10000)%float /\
  round4 (3 / 32) = (938 / 10000)%float /\
  round4 (- (3 / 2)) = (- (3 / 2))%float /\
  round4 infinity = infinity /\
  is_nan (round4 nan) = true.
Proof. vm_compute. repeat split; reflexivity. Qed.

Lemma fold_left_mul_map (g : float -> float) (l : Series) (a : float) :
  fold_left mul (map g l) a = fold_left (fun acc x => (acc * g x)%float) l a.
Proof. revert a. induction l as [|x t IH]; intros a; [reflexivity|]. cbn. apply IH. Qed.

Lemma pct_change_from_seq (x : float) (t : Series) :
  pct_change_from x t =
  map (fun i => (nth (S i) (x :: t) nan / nth i (x :: t) nan - 1)%float)
      (seq 0 (List.length t)).
Proof.
  revert x. induction t as [|y t IH]; intros x; [reflexivity|].
  cbn [pct_change_from List.length seq map]. f_equal.
  rewrite IH, <- seq_shift, map_map. reflexivity.
Qed.

(** The returns are the ratios of consecutive closes minus one, without
    those that are not a number. *)
Lemma returns_of_seq (close : Series) :
  returns_of close =
  filter (fun x => negb (is_nan x))
    (map (fun i => (nth (S i) close nan / nth i close nan - 1)%float)
         (seq 0 (List.length close - 1))).
Proof.
  destruct close as [|x t]; [reflexivity|].
  unfold returns_of, dropna. cbn [pct_change filter List.length].
  change (negb (is_nan nan)) with false. cbn iota.
  rewrite pct_change_from_seq. replace (S (List.length t) - 1) with (List.length t) by lia.
  reflexivity.
Qed.

(** C2. For a history whose return sequence has at least 10 elements and
    a volatility that is not zero, [calculate_sharpe_ratio] returns the
    product of the [1 + r_i] minus one, divided by the sample standard
    deviation of the [r_i] times the square root of 252, and a candidate
    with that history is stored with this value rounded to 4 decimals (when
    the history has its 20 bars; it is skipped otherwise). Every step is
    written out in float64 operations: the [r_i] are the ratios of
    consecutive closes minus one that are numbers; the product is taken from
    the first return to the last; the standard deviation is the square root
    of the summed squared deviations from the mean divided by [n - 1], both
    sums added in numpy's order; the stored value is the score times 10^4,
    rounded to the nearest integer (ties to even, sign kept), divided by
    10^4. *)
Theorem sharpe_score_formula (close : Series) :
  let r :=
    filter (fun x => negb (is_nan x))
      (map (fun i => (nth (S i) close nan / nth i close nan - 1)%float)
           (seq 0 (List.length close - 1))) in
  let n := List.length r in
  let growth := fold_left (fun acc x => (acc * (1 + x))%float) r 1%float in
  let avg := (sum r / float_of_nat n)%float in
  let deviation :=
    sqrt (sum (map (fun x => ((avg - x) * (avg - x))%float) r)
          / float_of_nat (n - 1))%float in
  let volatility := (deviation * sqrt 252)%float in
  let score := ((growth - 1) / volatility)%float in
  let scaled := (score * 10000)%float in
  let nearest := ((abs scaled + 4503599627370496) - 4503599627370496)%float in
  let whole :=
    if (abs scaled <? 4503599627370496)%float
    then (if get_sign scaled then (- nearest)%float else nearest)
    else scaled in
  let stored := (whole / 10000)%float in
  10 <= n ->
  (volatility =? 0)%float = false ->
  returns_of close = r /\
  calculate_sharpe_ratio (HistFrame close) = inr score /\
  forall w f ak_symbol st,
    fund_etf_hist_sina w ak_symbol "qfq" = inr (HistFrame close) ->
    exists st',
      score_candidate w f ak_symbol st = (inr tt, st') /\
      result_data st' =
      if List.length close <? 20 then result_data st
      else result_data st ++
           [mkRiskScore (f_symbol f) (f_name f) (f_price f) (f_change f)
              (f_turnover f) stored].
Proof.
  intros r n growth avg deviation volatility score scaled nearest whole stored Hlen Hvol.
  assert (Hr : returns_of close = r) by apply returns_of_seq.
  assert (Hv : volatility_of r = volatility).
  { unfold volatility_of, std, var, sqrt252. fold n.
    replace (n <=? 1) with false by (symmetry; apply Nat.leb_gt; lia).
    reflexivity. }
  assert (Hg : cum_return_of r = (growth - 1)%float).
  { unfold cum_return_of, prod, radd. now rewrite fold_left_mul_map. }
  assert (Hcalc : calculate_sharpe_ratio (HistFrame close) = inr score).
  { rewrite calculate_sharpe_ratio_cases. cbn zeta. rewrite Hr. fold n.
    apply Nat.ltb_ge in Hlen. rewrite Hlen, Hv, Hg, Hvol. reflexivity. }
  split; [exact Hr|]. split; [exact Hcalc|].
  intros w f ak_symbol st Hhist.
  rewrite score_candidate_unfold, Hhist. cbn [len].
  destruct (List.length close <? 20).
  - eexists. split; reflexivity.
  - rewrite Hcalc. eexists. split; reflexivity.
Qed.

Lemma sharpe_score_formula_witness :
  returns_of choppy_closes =
  filter (fun x => negb (is_nan x))
    (map (fun i => (nth (S i) choppy_closes nan / nth i choppy_closes nan - 1)%float)
         (seq 0 29)) /\
  (exists score,
     calculate_sharpe_ratio (HistFrame choppy_closes) = inr score /\
     Prim2SF score = S754_finite false 4952921346960672 (-59)) /\
  exists st',
    score_candidate (provider_with (inr []) (inr (HistFrame choppy_closes)))
      (mkFields "510300" "HS300" 4.5 1.5 2000) "sh510300" init_state = (inr tt, st') /\
    result_data st' =
    [mkRiskScore "510300" "HS300" 4.5 1.5 2000 (86 / 10000)].
Proof.
  assert (Hlen : 10 <= List.length
            (filter (fun x => negb (is_nan x))
               (map (fun i => (nth (S i) choppy_closes nan / nth i choppy_closes nan - 1)%float)
                  (seq 0 (List.length choppy_closes - 1)))))
    by (vm_compute; lia).
  destruct (sharpe_score_formula choppy_closes Hlen) as (Hr & Hcalc & Hrow);
    [vm_compute; reflexivity|].
  split; [exact Hr|]. split.
  - eexists. split; [exact Hcalc|]. vm_compute. reflexivity.
  - destruct (Hrow (provider_with (inr []) (inr (HistFrame choppy_closes)))
                (mkFields "510300" "HS300" 4.5 1.5 2000) "sh510300"%string init_state
                eq_refl) as (st' & Hrun & Hdata).
    exists st'. split; [exact Hrun|]. rewrite Hdata. vm_compute. reflexivity.
Defined.

(** Scoring 25 strictly rising bars gives a positive score, stored with
    four decimals. *)
Example rising_history_score :
  option_map round4
    (match calculate_sharpe_ratio (HistFrame (rising_closes 25)) with
     | inr s => Some s
     | inl _ => None
     end) = Some (173715 / 10000)%float.
Proof. vm_compute. reflexivity. Qed.

(** C3, as the code has it. For a history whose return sequence has fewer
    than 10 elements [calculate_sharpe_ratio] returns 0.0 and raises
    nothing; a candidate with such a history is appended to the results,
    with score 0.0, exactly when the history has at least 20 bars, and is
    skipped when it has fewer. *)
Theorem short_sample_scores_zero (close : Series) :
  List.length (returns_of close) < 10 ->
  calculate_sharpe_ratio (HistFrame close) = inr 0%float /\
  forall w f ak_symbol st,
    fund_etf_hist_sina w ak_symbol "qfq" = inr (HistFrame close) ->
    exists st',
      score_candidate w f ak_symbol st = (inr tt, st') /\
      result_data st' =
      if List.length close <? 20 then result_data st
      else result_data st ++
           [mkRiskScore (f_symbol f) (f_name f) (f_price f) (f_change f)
              (f_turnover f) 0%float].
Proof.
  intros Hlen.
  assert (Hcalc : calculate_sharpe_ratio (HistFrame close) = inr 0%float).
  { rewrite calculate_sharpe_ratio_cases. cbn zeta.
    apply Nat.ltb_lt in Hlen. now rewrite Hlen. }
  split; [exact Hcalc|].
  intros w f ak_symbol st Hhist.
  rewrite score_candidate_unfold, Hhist. cbn [len].
  destruct (List.length close <? 20).
  - eexists. split; reflexivity.
  - rewrite Hcalc. eexists. split; reflexivity.
Qed.

Lemma short_sample_scores_zero_witness :
  List.length (returns_of gappy_closes) = 7 /\
  List.length gappy_closes = 20 /\
  calculate_sharpe_ratio (HistFrame gappy_closes) = inr 0%float /\
  forall w f ak_symbol st,
    fund_etf_hist_sina w ak_symbol "qfq" = inr (HistFrame gappy_closes) ->
    exists st',
      score_candidate w f ak_symbol st = (inr tt, st') /\
      result_data st' =
      result_data st ++
      [mkRiskScore (f_symbol f) (f_name f) (f_price f) (f_change f)
         (f_turnover f) 0%float].
Proof.
  split; [vm_compute; reflexivity|]. split; [vm_compute; reflexivity|].
  apply (short_sample_scores_zero gappy_closes).
  vm_compute. lia.
Defined.

(** C3, as stated, fails: a history of 5 bars has 4 returns and scores 0.0,
    yet its candidate is not included; the run, whose only candidate it is,
    ends with the empty-pool error. *)
Lemma short_history_is_skipped :
  let w := provider_with (inr [etf_a]) (inr (HistFrame (rising_closes 5))) in
  List.length (returns_of (rising_closes 5)) = 4 /\
  calculate_sharpe_ratio (HistFrame (rising_closes 5)) = inr 0%float /\
  candidate_etfs_of stable_sort (valid_etfs_of [etf_a]) = [etf_a] /\
  scored w etf_a = [] /\
  fetch_etf_data stable_sort w = error_envelope msg_empty_pool clock.
Proof. vm_compute. repeat split; reflexivity. Qed.

(** C4. Whatever the closes, [calculate_sharpe_ratio] returns a number: the
    division is only reached with a divisor that is not zero, so its
    [ZeroDivisionError] cannot occur. When the annualized volatility is
    zero the number is 0.0, whatever the cumulative return. *)
Theorem zero_volatility_scores_zero (close : Series) :
  (exists v, calculate_sharpe_ratio (HistFrame close) = inr v) /\
  (forall msg, calculate_sharpe_ratio (HistFrame close) <> inl (ZeroDivisionError msg)) /\
  ((volatility_of (returns_of close) =? 0)%float = true ->
   calculate_sharpe_ratio (HistFrame close) = inr 0%float).
Proof.
  rewrite calculate_sharpe_ratio_cases. cbn zeta. split; [|split].
  - eexists. reflexivity.
  - intros msg. discriminate.
  - intros Hvol. rewrite Hvol.
    now destruct (List.length (returns_of close) <? 10).
Qed.

Lemma zero_volatility_scores_zero_witness :
  (volatility_of (returns_of flat_closes) =? 0)%float = true /\
  calculate_sharpe_ratio (HistFrame flat_closes) = inr 0%float.
Proof.
  split.
  - vm_compute. reflexivity.
  - apply (zero_volatility_scores_zero flat_closes). vm_compute. reflexivity.
Defined.

(* ================================================================== *)
(** ** The universe filter (claim C5) *)
(* ================================================================== *)

Lemma filter_subsequence (A : Type) (p : A -> bool) (l : list A) :
  Subsequence (filter p l) l.
Proof.
  induction l as [|x t IH]; cbn; [constructor|].
  destruct (p x); now constructor.
Qed.

Lemma valid_etfs_filter (etf_basic : DataFrame) :
  valid_etfs_of etf_basic = filter qualifies etf_basic.
Proof.
  unfold valid_etfs_of, column, gt_scalar, mask_and.
  induction etf_basic as [|e t IH]; [reflexivity|].
  cbn [map combine boolean_index filter fst snd].
  fold (qualifies e). rewrite IH. reflexivity.
Qed.

(** C5. The mask-and-index expression of lines 29-32 yields exactly the
    rows with turnover above 1000 and price above 0: it is the input with
    the other rows left out and the order kept, every row of the output
    meets both predicates, and every row of the input that is missing from
    the output fails one. The expression is a function of the snapshot
    alone; it reads and writes nothing else. *)
Theorem universe_filter_correct (etf_basic : DataFrame) :
  valid_etfs_of etf_basic = filter qualifies etf_basic /\
  Subsequence (valid_etfs_of etf_basic) etf_basic /\
  (forall e, In e (valid_etfs_of etf_basic) ->
     In e etf_basic /\
     (1000 <? col_turnover e)%float = true /\ (0 <? col_price e)%float = true) /\
  (forall e, In e etf_basic -> ~ In e (valid_etfs_of etf_basic) ->
     (1000 <? col_turnover e)%float = false \/ (0 <? col_price e)%float = false).
Proof.
  rewrite valid_etfs_filter. split; [reflexivity|].
  split; [apply filter_subsequence|]. split.
  - intros e He. apply filter_In in He. destruct He as [Hin Hq].
    apply andb_true_iff in Hq. tauto.
  - intros e Hin Hout.
    destruct (qualifies e) eqn:Hq.
    + exfalso. apply Hout. apply filter_In. now split.
    + now apply andb_false_iff in Hq.
Qed.

(** Of six rows the filter keeps the four with enough turnover and a
    positive price, in their order. *)
Example universe_filter_demo :
  valid_etfs_of [etf_a; etf_c; etf_b; etf_f; etf_e; etf_d] =
  [etf_a; etf_b; etf_e; etf_d].
Proof. vm_compute. reflexivity. Qed.

(* ================================================================== *)
(** ** The candidate ranking (claim C6) *)
(* ================================================================== *)

Lemma ForallOrdPairs_impl (A : Type) (R R' : A -> A -> Prop) (l : list A) :
  (forall a b, R a b -> R' a b) -> ForallOrdPairs R l -> ForallOrdPairs R' l.
Proof.
  intros HR. induction 1 as [|a l Ha Hl IH]; constructor; [|exact IH].
  eapply Forall_impl; [|exact Ha]. intros b. apply HR.
Qed.

Lemma ForallOrdPairs_firstn (A : Type) (R : A -> A -> Prop) (n : nat) (l : list A) :
  ForallOrdPairs R l -> ForallOrdPairs R (firstn n l).
Proof.
  intros H. revert n. induction H as [|a l Ha Hl IH]; intros [|n]; cbn;
    try constructor; [|apply IH].
  apply Forall_forall. intros b Hb. rewrite Forall_forall in Ha.
  apply Ha. rewrite <- (firstn_skipn n l). apply in_or_app. now left.
Qed.

Lemma candidate_etfs_nil (sv : SortValues) (valid_etfs : DataFrame) :
  candidate_etfs_of sv valid_etfs = [] <-> valid_etfs = [].
Proof.
  unfold candidate_etfs_of, head.
  pose proof (sort_values_perm sv valid_etfs) as Hp. split; intros H.
  - destruct (sort_values_desc sv valid_etfs) as [|x t] eqn:E.
    + now apply Permutation_sym, Permutation_nil in Hp.
    + discriminate H.
  - subst valid_etfs. apply Permutation_nil in Hp. now rewrite Hp.
Qed.

Lemma candidate_etfs_never_increase (sv : SortValues) (valid_etfs : DataFrame) :
  ForallOrdPairs
    (fun a b => (col_change a <? col_change b)%float = false)
    (candidate_etfs_of sv valid_etfs).
Proof.
  unfold candidate_etfs_of, head. apply ForallOrdPairs_firstn.
  eapply ForallOrdPairs_impl; [|apply sort_values_ordered].
  intros a b. apply na_last_ge_not_lt.
Qed.

(** C6, as the code has it. The candidate set is the first 50 rows of the
    sorted frame, which is a rearrangement of the filtered rows: going down
    the set the change never increases and NaN changes come last, the set
    has [min 50 n] rows, so never more than 50, and its rows are rows of the
    filtered frame. The order among rows with equal change is the one the
    sort leaves; the program asks for no stable sort. *)
Theorem candidate_ranking (sv : SortValues) (valid_etfs : DataFrame) :
  let candidate_etfs := candidate_etfs_of sv valid_etfs in
  candidate_etfs = firstn 50 (sort_values_desc sv valid_etfs) /\
  Permutation valid_etfs (candidate_etfs ++ skipn 50 (sort_values_desc sv valid_etfs)) /\
  ForallOrdPairs
    (fun a b => (col_change a <? col_change b)%float = false) candidate_etfs /\
  ForallOrdPairs
    (fun a b => is_nan (col_change a) = true -> is_nan (col_change b) = true)
    candidate_etfs /\
  List.length candidate_etfs = Nat.min 50 (List.length valid_etfs) /\
  List.length candidate_etfs <= 50.
Proof.
  cbn zeta. unfold candidate_etfs_of, head.
  pose proof (sort_values_perm sv valid_etfs) as Hp.
  pose proof (sort_values_ordered sv valid_etfs) as Ho.
  split; [reflexivity|]. split; [now rewrite firstn_skipn|].
  split; [|split; [|split]].
  - apply candidate_etfs_never_increase.
  - apply ForallOrdPairs_firstn.
    eapply ForallOrdPairs_impl; [|exact Ho].
    intros a b. apply na_last_ge_nan.
  - rewrite length_firstn. now rewrite (Permutation_length Hp).
  - rewrite length_firstn. lia.
Qed.

(** The rows whose change equals [k] (two NaN changes count as equal). *)
Definition same_change (k : float) (row : Row) : bool :=
  na_last_ge k (col_change row) && na_last_ge (col_change row) k.

Lemma insert_stable_keeps_ties (k : float) (x : Row) (l : DataFrame) :
  filter (same_change k) (insert_by before_stable x l) =
  filter (same_change k) (x :: l).
Proof.
  induction l as [|y t IH]; [reflexivity|].
  cbn [insert_by]. destruct (before_stable x y) eqn:E; [reflexivity|].
  cbn [filter] in *. rewrite IH.
  destruct (same_change k x) eqn:Ex; [|reflexivity].
  destruct (same_change k y) eqn:Ey; [|reflexivity].
  exfalso. unfold same_change in Ex, Ey.
  apply andb_true_iff in Ex. apply andb_true_iff in Ey.
  unfold before_stable in E.
  rewrite (na_last_ge_trans _ _ _ (proj2 Ex) (proj1 Ey)) in E. discriminate E.
Qed.

(** With a stable sort the rows of equal change do keep the order of the
    filter output: the tie order is a property of the sort chosen, which
    the program leaves to the default. *)
Lemma stable_sort_keeps_ties (k : float) (df : DataFrame) :
  filter (same_change k) (sort_values_desc stable_sort df) =
  filter (same_change k) df.
Proof.
  induction df as [|x t IH]; [reflexivity|].
  change (sort_values_desc stable_sort (x :: t))
    with (insert_by before_stable x (sort_values_desc stable_sort t)).
  rewrite insert_stable_keeps_ties. cbn [filter]. now rewrite IH.
Qed.

(** Two frames hold the same rows in the same order, going by the codes. *)
Definition cell_eqb (a b : cell) : bool :=
  match a, b with
  | CellStr s, CellStr t => String.eqb s t
  | CellNaN, CellNaN => true
  | _, _ => false
  end.

Fixpoint same_codes (a b : DataFrame) : bool :=
  match a, b with
  | [], [] => true
  | x :: a', y :: b' => cell_eqb (col_code x) (col_code y) && same_codes a' b'
  | _, _ => false
  end.

(** C6, as stated, fails on [tied_universe]. All its rows pass the filter,
    and sixty of them tie at the greatest change, 4. Keeping the ties in the
    order of the filter output would make the candidates the first fifty of
    these sixty rows, which is what a stable sort gives. Sorted as the
    program sorts, with pandas' default quicksort, the candidates are fifty
    rows with change 4 in another order. (Which order depends on the build
    of numpy; the one computed here is that of its generic quicksort.) *)
Lemma quicksort_reorders_ties :
  valid_etfs_of tied_universe = tied_universe /\
  candidate_etfs_of stable_sort (valid_etfs_of tied_universe) =
  firstn 50 (filter (same_change 4) tied_universe) /\
  sort_values_desc numpy_quicksort (valid_etfs_of tied_universe) =
  sort_values_quicksort tied_universe /\
  forallb (same_change 4)
    (candidate_etfs_of numpy_quicksort (valid_etfs_of tied_universe)) = true /\
  same_codes
    (candidate_etfs_of numpy_quicksort (valid_etfs_of tied_universe))
    (firstn 50 (filter (same_change 4) tied_universe)) = false.
Proof. vm_compute. repeat split; reflexivity. Qed.

(** Up to sixteen rows numpy's quicksort is an insertion sort, and pandas'
    two reversals make it keep the ties of a descending sort: two tied rows
    stay in their order. *)
Example quicksort_small_frame :
  col_change etf_a = col_change etf_b /\
  candidate_etfs_of numpy_quicksort (valid_etfs_of [etf_a; etf_b]) = [etf_a; etf_b].
Proof. vm_compute. split; reflexivity. Qed.

(** Sixty rows in, fifty candidates out. *)
Example candidate_truncation_demo :
  List.length (candidate_etfs_of stable_sort (repeat etf_a 60)) = 50.
Proof. vm_compute. reflexivity. Qed.

(* ================================================================== *)
(** ** The loop over the candidates *)
(* ================================================================== *)

Lemma candidate_body_unfold (w : Provider) (row : Row) (st : State) :
  candidate_body w row st =
  match extract_fields row with
  | inl e => (inl e, st)
  | inr f => score_candidate w f (ak_symbol_of (f_symbol f)) st
  end.
Proof.
  unfold candidate_body, bind, lift.
  destruct (extract_fields row); reflexivity.
Qed.

(** What one [try] statement adds to [result_data] does not depend on the
    state it starts from. *)
Lemma score_candidate_result_data
    (w : Provider) (f : Fields) (ak_symbol : string) (st : State) :
  result_data (snd (score_candidate w f ak_symbol st)) =
  result_data st ++ result_data (snd (score_candidate w f ak_symbol init_state)).
Proof.
  rewrite !score_candidate_unfold.
  destruct (fund_etf_hist_sina w ak_symbol "qfq") as [e|h];
    [cbn; now rewrite List.app_nil_r|].
  destruct (len h <? 20); [cbn; now rewrite List.app_nil_r|].
  destruct (calculate_sharpe_ratio h); cbn; [now rewrite List.app_nil_r|reflexivity].
Qed.

(** Each [try] statement sends one request to the provider. *)
Lemma score_candidate_requests
    (w : Provider) (f : Fields) (ak_symbol : string) (st : State) :
  hist_requests (snd (score_candidate w f ak_symbol st)) =
  hist_requests st ++ [(ak_symbol, "qfq"%string)].
Proof.
  rewrite score_candidate_unfold.
  destruct (fund_etf_hist_sina w ak_symbol "qfq") as [e|h];
    [reflexivity|].
  destruct (len h <? 20); [reflexivity|].
  destruct (calculate_sharpe_ratio h); reflexivity.
Qed.

(** A candidate adds no row or one, and the row carries its own fields. *)
Lemma scored_cases (w : Provider) (row : Row) :
  scored w row = [] \/
  exists f sharpe, extract_fields row = inr f /\ scored w row = [score_row f sharpe].
Proof.
  unfold scored. rewrite candidate_body_unfold.
  destruct (extract_fields row) as [e|f]; [now left|].
  rewrite score_candidate_unfold.
  destruct (fund_etf_hist_sina w (ak_symbol_of (f_symbol f)) "qfq") as [e|h];
    [now left|].
  destruct (len h <? 20); [now left|].
  destruct (calculate_sharpe_ratio h) as [e|sharpe]; [now left|].
  right. now exists f, sharpe.
Qed.

(** An iteration either raises while extracting the fields, leaving the
    state as it was, or runs its [try] statement to the end. *)
Lemma candidate_body_cases (w : Provider) (row : Row) (st : State) :
  (exists e, extract_fields row = inl e /\ candidate_body w row st = (inl e, st)) \/
  (exists st', extractable row /\ candidate_body w row st = (inr tt, st') /\
     result_data st' = result_data st ++ scored w row /\
     List.length (hist_requests st') = S (List.length (hist_requests st))).
Proof.
  unfold scored. rewrite !candidate_body_unfold.
  destruct (extract_fields row) as [e|f] eqn:E; [left; now exists e|].
  right. exists (snd (score_candidate w f (ak_symbol_of (f_symbol f)) st)).
  split; [now exists f|]. split; [|split].
  - pose proof (score_candidate_returns w f (ak_symbol_of (f_symbol f)) st) as H.
    destruct (score_candidate w f (ak_symbol_of (f_symbol f)) st) as [r st'];
      cbn in *. now subst r.
  - apply score_candidate_result_data.
  - rewrite score_candidate_requests, List.length_app. cbn. lia.
Qed.

Lemma for_each_cons (A : Type) (body : A -> M unit) (x : A) (t : list A) (st : State) :
  for_each body (x :: t) st =
  match body x st with
  | (inr _, st') => for_each body t st'
  | (inl e, st') => (inl e, st')
  end.
Proof. reflexivity. Qed.

(** A loop over extractable rows runs to its end; its [result_data] is that
    of the start followed by the rows of each candidate, in order, and it
    has sent one request per candidate. *)
Lemma for_each_extractable (w : Provider) (rows : list Row) (st : State) :
  Forall extractable rows ->
  exists st',
    for_each (candidate_body w) rows st = (inr tt, st') /\
    result_data st' = result_data st ++ flat_map (scored w) rows /\
    List.length (hist_requests st') = List.length (hist_requests st) + List.length rows.
Proof.
  intros H. revert st. induction H as [|row t Hrow Ht IH]; intros st.
  - exists st. cbn. now rewrite List.app_nil_r, Nat.add_0_r.
  - rewrite for_each_cons.
    destruct (candidate_body_cases w row st) as [(e & He & _)|(st1 & _ & Hb & Hd & Hr)].
    + destruct Hrow as [f Hf]. congruence.
    + rewrite Hb. destruct (IH st1) as (st' & Hloop & Hd' & Hr').
      exists st'. split; [exact Hloop|]. split.
      * rewrite Hd', Hd. cbn [flat_map]. now rewrite List.app_assoc.
      * rewrite Hr', Hr. cbn [List.length]. lia.
Qed.

(** A loop that runs to its end met extractable rows only. *)
Lemma for_each_returns_inv (w : Provider) (rows : list Row) (st st' : State) (u : unit) :
  for_each (candidate_body w) rows st = (inr u, st') ->
  Forall extractable rows.
Proof.
  revert st. induction rows as [|row t IH]; intros st H; [constructor|].
  rewrite for_each_cons in H.
  destruct (candidate_body_cases w row st) as [(e & He & Hb)|(st1 & Hx & Hb & _)];
    rewrite Hb in H; [discriminate|].
  constructor; [exact Hx|]. now apply (IH st1).
Qed.

(** The first row whose fields cannot be extracted ends the loop with its
    exception; the rows behind it are never looked at. *)
Lemma for_each_raises (w : Provider) (pre post : list Row) (row : Row) (e : exn) (st : State) :
  Forall extractable pre ->
  extract_fields row = inl e ->
  for_each (candidate_body w) (pre ++ row :: post) st =
  (inl e, snd (for_each (candidate_body w) pre st)).
Proof.
  intros Hpre Hrow. revert st. induction Hpre as [|r t Hr Ht IH]; intros st.
  - cbn [app]. rewrite for_each_cons, candidate_body_unfold, Hrow. reflexivity.
  - cbn [app]. rewrite !for_each_cons.
    destruct (candidate_body_cases w r st) as [(e' & He' & _)|(st1 & _ & Hb & _)].
    + destruct Hr as [f Hf]. congruence.
    + rewrite Hb. apply IH.
Qed.

(** The run, case by case. *)
Lemma run_fetch_cases (sv : SortValues) (w : Provider) :
  run_fetch sv w =
  match fund_etf_category_sina w with
  | inl e => (error_envelope (str_exn e) (now_strftime w), init_state)
  | inr etf_basic =>
      if empty etf_basic then
        (error_envelope msg_empty_universe (now_strftime w), init_state)
      else
        let candidate_etfs := candidate_etfs_of sv (valid_etfs_of etf_basic) in
        if empty candidate_etfs then
          (error_envelope msg_no_candidates (now_strftime w), init_state)
        else
          match for_each (candidate_body w) candidate_etfs init_state with
          | (inl e, st) => (error_envelope (str_exn e) (now_strftime w), st)
          | (inr _, st) =>
              if empty (result_data st) then
                (error_envelope msg_empty_pool (now_strftime w), st)
              else (success_envelope (result_data st) (now_strftime w), st)
          end
  end.
Proof.
  unfold run_fetch, fetch_body, bind, lift, raise, ret, get_result_data.
  destruct (fund_etf_category_sina w) as [e|etf_basic]; [reflexivity|].
  destruct (empty etf_basic); [reflexivity|]. cbn zeta.
  destruct (empty (candidate_etfs_of sv (valid_etfs_of etf_basic))); [reflexivity|].
  destruct (for_each (candidate_body w) _ init_state) as [[e|u] st]; [reflexivity|].
  destruct (empty (result_data st)); reflexivity.
Qed.

(* ================================================================== *)
(** ** The result envelope (claim C1) *)
(* ================================================================== *)

Lemma empty_false (A : Type) (l : list A) : empty l = false -> l <> [].
Proof. destruct l; [discriminate|]. intros _ H. discriminate H. Qed.

Lemma fetch_etf_data_forms (sv : SortValues) (w : Provider) :
  (exists data, data <> [] /\
     fetch_etf_data sv w = success_envelope data (now_strftime w)) \/
  (exists error, fetch_etf_data sv w = error_envelope error (now_strftime w)).
Proof.
  unfold fetch_etf_data. rewrite run_fetch_cases.
  destruct (fund_etf_category_sina w) as [e|etf_basic]; [right; now eexists|].
  destruct (empty etf_basic); [right; now eexists|]. cbn zeta.
  destruct (empty (candidate_etfs_of sv (valid_etfs_of etf_basic)));
    [right; now eexists|].
  destruct (for_each (candidate_body w) _ init_state) as [[e|u] st];
    [right; now eexists|].
  destruct (empty (result_data st)) eqn:E; [right; now eexists|].
  left. exists (result_data st). split; [now apply empty_false|reflexivity].
Qed.

(** As long as the calls into the provider return or raise an instance of
    [Exception], a call of [fetch_etf_data] returns one dict, of one of two
    forms: the keys [data], [timestamp], [count], with a non-empty list,
    the clock reading and the length of the list, or the keys [error],
    [timestamp], with a message and the clock reading. It never has both
    sets of keys, no value is [None], and an exception raised in the body
    ends as the error form carrying its message. *)
Lemma exactly_one_envelope (sv : SortValues) (w : Provider) :
  let env := fetch_etf_data sv w in
  ((exists data, data <> [] /\ env = success_envelope data (now_strftime w)) \/
   (exists error, env = error_envelope error (now_strftime w))) /\
  (is_success env \/ is_error env) /\
  ~ (is_success env /\ is_error env) /\
  Forall (fun kv => snd kv <> VNone) env /\
  (forall e st, fetch_body sv w init_state = (inl e, st) ->
     env = error_envelope (str_exn e) (now_strftime w)) /\
  (forall env' st, fetch_body sv w init_state = (inr env', st) -> env = env').
Proof.
  cbn zeta. split; [apply fetch_etf_data_forms|].
  split; [|split; [|split; [|split]]].
  - destruct (fetch_etf_data_forms sv w) as [(data & _ & H)|(error & H)];
      rewrite H; [left|right]; reflexivity.
  - unfold is_success, is_error. intros [H1 H2]. rewrite H1 in H2. discriminate H2.
  - destruct (fetch_etf_data_forms sv w) as [(data & _ & H)|(error & H)];
      rewrite H; repeat constructor; discriminate.
  - intros e st H. unfold fetch_etf_data, run_fetch. now rewrite H.
  - intros env' st H. unfold fetch_etf_data, run_fetch. now rewrite H.
Qed.

(** *** Exceptions that [except Exception] does not catch

    Both handlers of [fetch_etf_data] are [except Exception] clauses.
    Python has exception classes outside [Exception]: a call into the
    provider may end with [KeyboardInterrupt] (the user interrupts the
    download), [SystemExit] or [GeneratorExit], and no handler of the
    function catches these. The run is written out once more with calls
    that may end in this third way; everything else is as above. *)

Module Interruptible.

Inductive base_exn : Type :=
| KeyboardInterrupt
| SystemExit (code : nat)
| GeneratorExit.

(** How a call ends: with a value, with an exception that is an instance
    of [Exception], or with one that is not. *)
Inductive outcome (A : Type) : Type :=
| Returns (a : A)
| Raises (e : exn)
| Escapes (b : base_exn).
Arguments Returns {A} a.
Arguments Raises {A} e.
Arguments Escapes {A} b.

Definition of_result (A : Type) (r : result A) : outcome A :=
  match r with
  | inr a => Returns a
  | inl e => Raises e
  end.

Record Provider : Type := mkProvider {
  fund_etf_category_sina : outcome DataFrame;
  fund_etf_hist_sina : string -> string -> outcome History;
  now_strftime : string
}.

Definition G (A : Type) : Type := State -> outcome A * State.

Definition ret (A : Type) (a : A) : G A := fun st => (Returns a, st).

Definition raise (A : Type) (e : exn) : G A := fun st => (Raises e, st).
Arguments raise {A} e.

Definition bind (A B : Type) (m : G A) (k : A -> G B) : G B :=
  fun st =>
    match m st with
    | (Returns a, st') => k a st'
    | (Raises e, st') => (Raises e, st')
    | (Escapes b, st') => (Escapes b, st')
    end.

(** [try: m  except Exception as e: handler e]: the handler takes the
    instances of [Exception]; any other exception passes it by. *)
Definition try_except (A : Type) (m : G A) (handler : exn -> G A) : G A :=
  fun st =>
    match m st with
    | (Returns a, st') => (Returns a, st')
    | (Raises e, st') => handler e st'
    | (Escapes b, st') => (Escapes b, st')
    end.

(** A step that cannot be interrupted. *)
Definition of_M (A : Type) (m : M A) : G A :=
  fun st => (of_result (fst (m st)), snd (m st)).

Declare Scope ipy_scope.
Delimit Scope ipy_scope with ipy.
Notation "x <- m ;; k" := (bind m (fun x => k))
  (at level 61, m at next level, right associativity) : ipy_scope.
Notation "m ;;; k" := (bind m (fun _ => k))
  (at level 61, right associativity) : ipy_scope.
Local Open Scope ipy_scope.

Definition call_category (w : Provider) : G DataFrame :=
  fun st => (fund_etf_category_sina w, st).

Definition call_hist (w : Provider) (symbol adjust : string) : G History :=
  fun st =>
    (fund_etf_hist_sina w symbol adjust,
     mkState (result_data st) (stdout st) (hist_requests st ++ [(symbol, adjust)])).

Fixpoint for_each (A : Type) (body : A -> G unit) (l : list A) : G unit :=
  match l with
  | [] => ret tt
  | x :: t => body x ;;; for_each body t
  end.

(** Lines 52-72 *)
Definition score_candidate (w : Provider) (f : Fields) (ak_symbol : string) : G unit :=
  try_except
    (history <- call_hist w ak_symbol "qfq" ;;
     if len history <? 20 then
       of_M (print (skip_message (f_name f) (f_symbol f) (len history)))
     else
       sharpe <- of_M (lift (calculate_sharpe_ratio history)) ;;
       of_M (append_result (score_row f sharpe)))
    (fun e => of_M (print (failure_message (f_name f) (f_symbol f) e))).

(** Lines 41-72 *)
Definition candidate_body (w : Provider) (row : Row) : G unit :=
  f <- of_M (lift (extract_fields row)) ;;
  let ak_symbol := ak_symbol_of (f_symbol f) in
  score_candidate w f ak_symbol.

(** Lines 23-82 *)
Definition fetch_body (sv : SortValues) (w : Provider) : G Envelope :=
  etf_basic <- call_category w ;;
  if empty etf_basic then raise (ValueError msg_empty_universe)
  else
    let valid_etfs := valid_etfs_of etf_basic in
    let candidate_etfs := candidate_etfs_of sv valid_etfs in
    if empty candidate_etfs then raise (ValueError msg_no_candidates)
    else
      for_each (candidate_body w) candidate_etfs ;;;
      data <- of_M get_result_data ;;
      if empty data then raise (ValueError msg_empty_pool)
      else ret (success_envelope data (now_strftime w)).

(** Lines 20-86: what the call of [fetch_etf_data] ends with. *)
Definition run_fetch (sv : SortValues) (w : Provider) : outcome Envelope * State :=
  try_except (fetch_body sv w)
    (fun e => ret (error_envelope (str_exn e) (now_strftime w)))
    init_state.

Definition fetch_etf_data (sv : SortValues) (w : Provider) : outcome Envelope :=
  fst (run_fetch sv w).

(** No call into the provider ends with an exception outside
    [Exception]. *)
Definition uninterrupted (w : Provider) : Prop :=
  (forall b, fund_etf_category_sina w <> Escapes b) /\
  (forall symbol adjust b, fund_etf_hist_sina w symbol adjust <> Escapes b).

End Interruptible.

(** A provider whose calls return or raise an instance of [Exception], as
    one whose calls might be interrupted. *)
Definition interruptible (w : Provider) : Interruptible.Provider :=
  Interruptible.mkProvider
    (Interruptible.of_result (fund_etf_category_sina w))
    (fun symbol adjust => Interruptible.of_result (fund_etf_hist_sina w symbol adjust))
    (now_strftime w).

Module InterruptedExamples.

Import Interruptible.

(** The download of the snapshot is interrupted. *)
Definition interrupted_at_snapshot : Interruptible.Provider :=
  Interruptible.mkProvider (Escapes KeyboardInterrupt)
    (fun _ _ => Returns (HistFrame (rising_closes 25))) clock.

(** The snapshot arrives; the history request for 510300 ends the process. *)
Definition exits_at_510300 : Interruptible.Provider :=
  Interruptible.mkProvider (Returns [etf_d; etf_a; etf_h])
    (fun symbol _ =>
       if String.eqb symbol "sh510300" then Escapes (SystemExit 1)
       else Returns (HistFrame (rising_closes 25)))
    clock.

End InterruptedExamples.

(** The [try] statement of one iteration, case by case: an exception
    outside [Exception] leaves it, whatever else happens ends in it. *)
Lemma interruptible_score_candidate_unfold
    (w : Interruptible.Provider) (f : Fields) (ak_symbol : string) (st : State) :
  Interruptible.score_candidate w f ak_symbol st =
  match Interruptible.fund_etf_hist_sina w ak_symbol "qfq" with
  | Interruptible.Escapes b => (Interruptible.Escapes b, requested ak_symbol st)
  | Interruptible.Raises e =>
      (Interruptible.Returns tt,
       snd (print (failure_message (f_name f) (f_symbol f) e) (requested ak_symbol st)))
  | Interruptible.Returns h =>
      if len h <? 20 then
        (Interruptible.Returns tt,
         snd (print (skip_message (f_name f) (f_symbol f) (len h))
                (requested ak_symbol st)))
      else
        match calculate_sharpe_ratio h with
        | inl e =>
            (Interruptible.Returns tt,
             snd (print (failure_message (f_name f) (f_symbol f) e)
                    (requested ak_symbol st)))
        | inr sharpe =>
            (Interruptible.Returns tt,
             snd (append_result (score_row f sharpe) (requested ak_symbol st)))
        end
  end.
Proof.
  unfold Interruptible.score_candidate, Interruptible.try_except, Interruptible.bind,
    Interruptible.call_hist, Interruptible.of_M, requested.
  destruct (Interruptible.fund_etf_hist_sina w ak_symbol "qfq") as [h|e|b];
    [|reflexivity|reflexivity].
  destruct (len h <? 20); [reflexivity|].
  unfold lift. cbn [fst snd Interruptible.of_result].
  destruct (calculate_sharpe_ratio h); reflexivity.
Qed.

Lemma interruptible_candidate_body_unfold
    (w : Interruptible.Provider) (row : Row) (st : State) :
  Interruptible.candidate_body w row st =
  match extract_fields row with
  | inl e => (Interruptible.Raises e, st)
  | inr f => Interruptible.score_candidate w f (ak_symbol_of (f_symbol f)) st
  end.
Proof.
  unfold Interruptible.candidate_body, Interruptible.bind, Interruptible.of_M, lift.
  cbn [fst snd]. destruct (extract_fields row); reflexivity.
Qed.

(** One iteration over an uninterrupted provider is the iteration of
    [candidate_body]. *)
Lemma interruptible_candidate_body (w : Provider) (row : Row) (st : State) :
  Interruptible.candidate_body (interruptible w) row st =
  (Interruptible.of_result (fst (candidate_body w row st)),
   snd (candidate_body w row st)).
Proof.
  rewrite interruptible_candidate_body_unfold, candidate_body_unfold.
  destruct (extract_fields row) as [e|f]; [reflexivity|].
  rewrite interruptible_score_candidate_unfold, score_candidate_unfold.
  cbn [interruptible Interruptible.fund_etf_hist_sina].
  destruct (fund_etf_hist_sina w (ak_symbol_of (f_symbol f)) "qfq") as [e|h];
    [reflexivity|]. cbn [Interruptible.of_result].
  destruct (len h <? 20); [reflexivity|].
  destruct (calculate_sharpe_ratio h); reflexivity.
Qed.

Lemma interruptible_for_each (w : Provider) (rows : list Row) (st : State) :
  Interruptible.for_each (Interruptible.candidate_body (interruptible w)) rows st =
  (Interruptible.of_result (fst (for_each (candidate_body w) rows st)),
   snd (for_each (candidate_body w) rows st)).
Proof.
  revert st. induction rows as [|row t IH]; intros st; [reflexivity|].
  rewrite for_each_cons. cbn [Interruptible.for_each]. unfold Interruptible.bind.
  rewrite interruptible_candidate_body.
  destruct (candidate_body w row st) as [[e|u] st1]; [reflexivity|].
  cbn [fst snd Interruptible.of_result]. apply IH.
Qed.

(** When every call into the provider returns or raises an instance of
    [Exception], the run is the one [run_fetch] describes, and it returns
    the envelope of [fetch_etf_data]. *)
Lemma interruptible_run_fetch (sv : SortValues) (w : Provider) :
  Interruptible.run_fetch sv (interruptible w) =
  (Interruptible.Returns (fetch_etf_data sv w), snd (run_fetch sv w)).
Proof.
  unfold fetch_etf_data. rewrite run_fetch_cases.
  unfold Interruptible.run_fetch, Interruptible.try_except, Interruptible.fetch_body,
    Interruptible.bind, Interruptible.call_category, Interruptible.raise,
    Interruptible.ret, Interruptible.of_M, get_result_data.
  cbn [interruptible Interruptible.fund_etf_category_sina Interruptible.now_strftime].
  destruct (fund_etf_category_sina w) as [e|etf_basic]; [reflexivity|].
  cbn [Interruptible.of_result].
  destruct (empty etf_basic); [reflexivity|]. cbn zeta.
  destruct (empty (candidate_etfs_of sv (valid_etfs_of etf_basic))); [reflexivity|].
  change (Interruptible.mkProvider _ _ _) with (interruptible w).
  rewrite interruptible_for_each.
  destruct (for_each (candidate_body w) _ init_state) as [[e|u] st]; [reflexivity|].
  cbn [fst snd Interruptible.of_result].
  destruct (empty (result_data st)); reflexivity.
Qed.

(** An iteration ends normally, or with the exception of the field
    extraction, or with an exception outside [Exception] that its history
    request ended with. *)
Lemma interruptible_candidate_body_cases
    (w : Interruptible.Provider) (row : Row) (st : State) :
  match fst (Interruptible.candidate_body w row st) with
  | Interruptible.Returns _ => True
  | Interruptible.Raises e => extract_fields row = inl e
  | Interruptible.Escapes b =>
      exists symbol,
        Interruptible.fund_etf_hist_sina w symbol "qfq" = Interruptible.Escapes b
  end.
Proof.
  rewrite interruptible_candidate_body_unfold.
  destruct (extract_fields row) as [e|f]; [reflexivity|].
  rewrite interruptible_score_candidate_unfold.
  destruct (Interruptible.fund_etf_hist_sina w (ak_symbol_of (f_symbol f)) "qfq")
    as [h|e|b] eqn:E; cbn [fst].
  - destruct (len h <? 20); [exact I|].
    destruct (calculate_sharpe_ratio h); exact I.
  - exact I.
  - now exists (ak_symbol_of (f_symbol f)).
Qed.

Lemma interruptible_for_each_cases
    (w : Interruptible.Provider) (rows : list Row) (st : State) :
  match fst (Interruptible.for_each (Interruptible.candidate_body w) rows st) with
  | Interruptible.Returns _ => True
  | Interruptible.Raises e => exists row, In row rows /\ extract_fields row = inl e
  | Interruptible.Escapes b =>
      exists symbol,
        Interruptible.fund_etf_hist_sina w symbol "qfq" = Interruptible.Escapes b
  end.
Proof.
  revert st. induction rows as [|row t IH]; intros st; [exact I|].
  cbn [Interruptible.for_each]. unfold Interruptible.bind.
  pose proof (interruptible_candidate_body_cases w row st) as Hb.
  destruct (Interruptible.candidate_body w row st) as [[u|e|b] st1]; cbn [fst] in *.
  - specialize (IH st1).
    destruct (fst (Interruptible.for_each (Interruptible.candidate_body w) t st1))
      as [u'|e|b]; [exact I| |exact IH].
    destruct IH as (r & Hr & He). exists r. split; [now right | exact He].
  - exists row. split; [now left | exact Hb].
  - exact Hb.
Qed.

(** The run, case by case. *)
Lemma interruptible_run_fetch_cases (sv : SortValues) (w : Interruptible.Provider) :
  Interruptible.run_fetch sv w =
  let timestamp := Interruptible.now_strftime w in
  match Interruptible.fund_etf_category_sina w with
  | Interruptible.Escapes b => (Interruptible.Escapes b, init_state)
  | Interruptible.Raises e =>
      (Interruptible.Returns (error_envelope (str_exn e) timestamp), init_state)
  | Interruptible.Returns etf_basic =>
      if empty etf_basic then
        (Interruptible.Returns (error_envelope msg_empty_universe timestamp), init_state)
      else
        let candidate_etfs := candidate_etfs_of sv (valid_etfs_of etf_basic) in
        if empty candidate_etfs then
          (Interruptible.Returns (error_envelope msg_no_candidates timestamp), init_state)
        else
          match Interruptible.for_each (Interruptible.candidate_body w)
                  candidate_etfs init_state with
          | (Interruptible.Escapes b, st) => (Interruptible.Escapes b, st)
          | (Interruptible.Raises e, st) =>
              (Interruptible.Returns (error_envelope (str_exn e) timestamp), st)
          | (Interruptible.Returns _, st) =>
              if empty (result_data st) then
                (Interruptible.Returns (error_envelope msg_empty_pool timestamp), st)
              else
                (Interruptible.Returns (success_envelope (result_data st) timestamp), st)
          end
  end.
Proof.
  unfold Interruptible.run_fetch, Interruptible.try_except, Interruptible.fetch_body,
    Interruptible.bind, Interruptible.call_category, Interruptible.raise,
    Interruptible.ret, Interruptible.of_M, get_result_data.
  cbn zeta.
  destruct (Interruptible.fund_etf_category_sina w) as [etf_basic|e|b];
    [|reflexivity|reflexivity].
  destruct (empty etf_basic); [reflexivity|].
  destruct (empty (candidate_etfs_of sv (valid_etfs_of etf_basic))); [reflexivity|].
  destruct (Interruptible.for_each (Interruptible.candidate_body w) _ init_state)
    as [[u|e|b] st]; [|reflexivity|reflexivity].
  cbn [fst snd Interruptible.of_result].
  destruct (empty (result_data st)); reflexivity.
Qed.

Lemma envelope_forms (env : Envelope) (timestamp : string) :
  (exists data, data <> [] /\ env = success_envelope data timestamp) \/
  (exists error, env = error_envelope error timestamp) ->
  (is_success env \/ is_error env) /\
  ~ (is_success env /\ is_error env) /\
  Forall (fun kv => snd kv <> VNone) env.
Proof.
  intros H. split; [|split].
  - destruct H as [(data & _ & ->)|(error & ->)]; [left|right]; reflexivity.
  - unfold is_success, is_error. intros [H1 H2]. rewrite H1 in H2. discriminate H2.
  - destruct H as [(data & _ & ->)|(error & ->)]; repeat constructor; discriminate.
Qed.

(** How a call of [fetch_etf_data] ends. *)
Lemma interruptible_fetch_etf_data_forms (sv : SortValues) (w : Interruptible.Provider) :
  match Interruptible.fetch_etf_data sv w with
  | Interruptible.Returns env =>
      (exists data, data <> [] /\
         env = success_envelope data (Interruptible.now_strftime w)) \/
      (exists error, env = error_envelope error (Interruptible.now_strftime w))
  | Interruptible.Raises e => False
  | Interruptible.Escapes b =>
      Interruptible.fund_etf_category_sina w = Interruptible.Escapes b \/
      exists symbol,
        Interruptible.fund_etf_hist_sina w symbol "qfq" = Interruptible.Escapes b
  end.
Proof.
  unfold Interruptible.fetch_etf_data. rewrite interruptible_run_fetch_cases. cbn zeta.
  destruct (Interruptible.fund_etf_category_sina w) as [etf_basic|e|b];
    cbn [fst]; [|right; now eexists|now left].
  destruct (empty etf_basic); cbn [fst]; [right; now eexists|].
  destruct (empty (candidate_etfs_of sv (valid_etfs_of etf_basic)));
    cbn [fst]; [right; now eexists|].
  pose proof (interruptible_for_each_cases w
                (candidate_etfs_of sv (valid_etfs_of etf_basic)) init_state) as Hl.
  destruct (Interruptible.for_each (Interruptible.candidate_body w) _ init_state)
    as [[u|e|b] st]; cbn [fst] in *.
  - destruct (empty (result_data st)) eqn:E; cbn [fst]; [right; now eexists|].
    left. exists (result_data st). split; [now apply empty_false | reflexivity].
  - right. now eexists.
  - now right.
Qed.

(** C1, as the code has it. A call of [fetch_etf_data] ends in one of two
    ways. Either it returns one dict, of one of two forms: the keys [data],
    [timestamp], [count], with a non-empty list, the clock reading and the
    length of the list, or the keys [error], [timestamp], with a message
    and the clock reading; it never has both sets of keys and no value is
    [None]. Or an exception that is not an instance of [Exception] leaves
    the function, and then a call into the provider ended with it. No
    instance of [Exception] leaves the function: one raised in the body
    ends as the error form carrying its message. When no call into the
    provider is interrupted the function returns its dict. *)
Theorem envelope_unless_interrupted (sv : SortValues) (w : Interruptible.Provider) :
  match Interruptible.fetch_etf_data sv w with
  | Interruptible.Returns env =>
      ((exists data, data <> [] /\
          env = success_envelope data (Interruptible.now_strftime w)) \/
       (exists error, env = error_envelope error (Interruptible.now_strftime w))) /\
      (is_success env \/ is_error env) /\
      ~ (is_success env /\ is_error env) /\
      Forall (fun kv => snd kv <> VNone) env
  | Interruptible.Raises e => False
  | Interruptible.Escapes b =>
      Interruptible.fund_etf_category_sina w = Interruptible.Escapes b \/
      exists symbol,
        Interruptible.fund_etf_hist_sina w symbol "qfq" = Interruptible.Escapes b
  end /\
  (Interruptible.uninterrupted w ->
   exists env, Interruptible.fetch_etf_data sv w = Interruptible.Returns env) /\
  (forall e st,
     Interruptible.fetch_body sv w init_state = (Interruptible.Raises e, st) ->
     Interruptible.fetch_etf_data sv w =
     Interruptible.Returns (error_envelope (str_exn e) (Interruptible.now_strftime w))) /\
  (forall env st,
     Interruptible.fetch_body sv w init_state = (Interruptible.Returns env, st) ->
     Interruptible.fetch_etf_data sv w = Interruptible.Returns env) /\
  (forall b st,
     Interruptible.fetch_body sv w init_state = (Interruptible.Escapes b, st) ->
     Interruptible.fetch_etf_data sv w = Interruptible.Escapes b).
Proof.
  pose proof (interruptible_fetch_etf_data_forms sv w) as Hforms.
  split; [|split; [|split; [|split]]].
  - destruct (Interruptible.fetch_etf_data sv w) as [env|e|b];
      [|exact Hforms|exact Hforms].
    split; [exact Hforms | now apply envelope_forms with (Interruptible.now_strftime w)].
  - intros [Hsnap Hhist].
    destruct (Interruptible.fetch_etf_data sv w) as [env|e|b];
      [now exists env|contradiction|].
    destruct Hforms as [H|[symbol H]];
      [now apply Hsnap in H | now apply Hhist in H].
  - intros e st H.
    unfold Interruptible.fetch_etf_data, Interruptible.run_fetch,
      Interruptible.try_except. now rewrite H.
  - intros env st H.
    unfold Interruptible.fetch_etf_data, Interruptible.run_fetch,
      Interruptible.try_except. now rewrite H.
  - intros b st H.
    unfold Interruptible.fetch_etf_data, Interruptible.run_fetch,
      Interruptible.try_except. now rewrite H.
Qed.

(** C1, as stated, fails on two runs: the download of the snapshot is
    interrupted, and a history request ends the process after the first
    candidate was stored. Neither run returns a dict. *)
Lemma interrupt_leaves_no_envelope :
  Interruptible.run_fetch stable_sort InterruptedExamples.interrupted_at_snapshot =
  (Interruptible.Escapes Interruptible.KeyboardInterrupt, init_state) /\
  Interruptible.fetch_etf_data stable_sort InterruptedExamples.exits_at_510300 =
  Interruptible.Escapes (Interruptible.SystemExit 1) /\
  map fst (hist_requests
             (snd (Interruptible.run_fetch stable_sort
                     InterruptedExamples.exits_at_510300))) =
  ["sh511010"; "sh510300"]%string /\
  List.length (result_data
                 (snd (Interruptible.run_fetch stable_sort
                         InterruptedExamples.exits_at_510300))) = 1.
Proof. vm_compute. repeat split; reflexivity. Qed.

(** With the same snapshot and no interruption the run returns its dict. *)
Example uninterrupted_run_returns :
  Interruptible.fetch_etf_data stable_sort
    (interruptible (mixed_provider [etf_d; etf_a; etf_h])) =
  Interruptible.Returns (fetch_etf_data stable_sort (mixed_provider [etf_d; etf_a; etf_h])) /\
  is_success (fetch_etf_data stable_sort (mixed_provider [etf_d; etf_a; etf_h])).
Proof. vm_compute. split; reflexivity. Qed.

(* ================================================================== *)
(** ** Skipping a candidate (claim C7) *)
(* ================================================================== *)

(** C7. Take a candidate whose fields were extracted. When its history
    request raises, or returns fewer than 20 bars, or returns a frame on
    which the Sharpe computation raises, the iteration still ends normally
    and leaves [result_data] as it was, and the loop goes on with the next
    candidate from the state the iteration left: nothing reaches the outer
    handler. *)
Theorem candidate_failure_is_skipped
    (w : Provider) (row : Row) (f : Fields) (st : State) :
  extract_fields row = inr f ->
  ((exists e, fund_etf_hist_sina w (ak_symbol_of (f_symbol f)) "qfq" = inl e) \/
   (exists h, fund_etf_hist_sina w (ak_symbol_of (f_symbol f)) "qfq" = inr h /\
      (len h < 20 \/ exists e, calculate_sharpe_ratio h = inl e))) ->
  exists st',
    candidate_body w row st = (inr tt, st') /\
    result_data st' = result_data st /\
    (forall rest,
       for_each (candidate_body w) (row :: rest) st =
       for_each (candidate_body w) rest st').
Proof.
  intros Hrow Hskip.
  assert (H : exists st', candidate_body w row st = (inr tt, st') /\
                          result_data st' = result_data st).
  { rewrite candidate_body_unfold, Hrow, score_candidate_unfold.
    destruct Hskip as [(e & He)|(h & Hh & [Hlen|(e & He)])].
    - rewrite He. eexists. split; reflexivity.
    - rewrite Hh. apply Nat.ltb_lt in Hlen. rewrite Hlen.
      eexists. split; reflexivity.
    - rewrite Hh, He. destruct (len h <? 20); eexists; split; reflexivity. }
  destruct H as (st' & Hrun & Hdata). exists st'.
  split; [exact Hrun|]. split; [exact Hdata|].
  intros rest. rewrite for_each_cons, Hrun. reflexivity.
Qed.

Lemma candidate_failure_is_skipped_witness :
  exists st',
    candidate_body (mixed_provider []) etf_d init_state = (inr tt, st') /\
    result_data st' = [].
Proof.
  destruct (@candidate_failure_is_skipped (mixed_provider []) etf_d
              (mkFields "511010" "GZ" 120.5 3.5 5000) init_state)
    as (st' & Hrun & Hdata & _).
  - vm_compute. reflexivity.
  - right. exists (HistFrame (rising_closes 19)). split.
    + vm_compute. reflexivity.
    + left. vm_compute. lia.
  - exists st'. split; [exact Hrun | exact Hdata].
Defined.

(** Four candidates, three of them skipped for the three reasons: the pool
    keeps the fourth, the three diagnostics are printed, and every candidate
    was asked for. *)
Example skip_and_continue_demo :
  let r := run_fetch stable_sort (mixed_provider [etf_d; etf_e; etf_a; etf_h]) in
  keys (fst r) = ["data"; "timestamp"; "count"]%string /\
  map rs_symbol (result_data (snd r)) = ["510300"%string] /\
  List.length (stdout (snd r)) = 3 /\
  map fst (hist_requests (snd r)) =
  ["sh511010"; "sh510300"; "sh513100"; "sh518880"]%string.
Proof. vm_compute. repeat split; reflexivity. Qed.

(* ================================================================== *)
(** ** The three fatal emptiness conditions (claim C8) *)
(* ================================================================== *)

(** A loop that ends with an exception met a row whose fields could not be
    extracted: nothing else escapes an iteration. *)
Lemma for_each_raises_inv (w : Provider) (rows : list Row) (st st' : State) (e : exn) :
  for_each (candidate_body w) rows st = (inl e, st') ->
  exists row, In row rows /\ extract_fields row = inl e.
Proof.
  revert st. induction rows as [|row t IH]; intros st H; [discriminate|].
  rewrite for_each_cons in H.
  destruct (candidate_body_cases w row st) as [(e' & He' & Hb)|(st1 & _ & Hb & _)];
    rewrite Hb in H.
  - injection H as <- _. exists row. split; [now left | exact He'].
  - destruct (IH st1 H) as (r & Hr & He). exists r. split; [now right | exact He].
Qed.

Lemma flat_map_all_nil (A B : Type) (g : A -> list B) (l : list A) :
  (forall x, In x l -> g x = []) -> flat_map g l = [].
Proof.
  induction l as [|x t IH]; intros H; [reflexivity|].
  cbn. rewrite (H x) by now left. apply IH. intros y Hy. apply H. now right.
Qed.

(** C8. An empty snapshot, a snapshot of which the filter keeps nothing,
    and a candidate set of which every candidate is skipped each end the
    run with the error envelope, each at its own stage (the first two
    before any history request, the third after one request per candidate)
    and with a message of its own: the three messages differ from one
    another. The program raises [ValueError] in all three cases; the
    message is what tells them apart in the envelope. *)
Theorem fatal_emptiness (sv : SortValues) (w : Provider) :
  (fund_etf_category_sina w = inr [] ->
   run_fetch sv w =
   (error_envelope msg_empty_universe (now_strftime w), init_state)) /\
  (forall etf_basic,
     fund_etf_category_sina w = inr etf_basic ->
     etf_basic <> [] ->
     valid_etfs_of etf_basic = [] ->
     run_fetch sv w =
     (error_envelope msg_no_candidates (now_strftime w), init_state)) /\
  (forall etf_basic,
     fund_etf_category_sina w = inr etf_basic ->
     valid_etfs_of etf_basic <> [] ->
     (forall row, In row (candidate_etfs_of sv (valid_etfs_of etf_basic)) ->
        extractable row /\ scored w row = []) ->
     exists st,
       run_fetch sv w = (error_envelope msg_empty_pool (now_strftime w), st) /\
       result_data st = [] /\
       List.length (hist_requests st) =
       List.length (candidate_etfs_of sv (valid_etfs_of etf_basic))) /\
  (msg_empty_universe <> msg_no_candidates /\
   msg_no_candidates <> msg_empty_pool /\
   msg_empty_universe <> msg_empty_pool).
Proof.
  split; [|split; [|split]]; rewrite ?run_fetch_cases.
  - intros H. rewrite H. reflexivity.
  - intros etf_basic H Hne Hvalid. rewrite H.
    destruct etf_basic as [|e t]; [contradiction|]. cbn [empty].
    cbn zeta. rewrite Hvalid.
    rewrite (proj2 (candidate_etfs_nil sv []) eq_refl). reflexivity.
  - intros etf_basic H Hvalid Hall. rewrite H.
    destruct etf_basic as [|e t]; [now contradiction Hvalid|]. cbn [empty].
    cbn zeta.
    destruct (candidate_etfs_of sv (valid_etfs_of (e :: t))) as [|c cs] eqn:Ec.
    { apply candidate_etfs_nil in Ec. contradiction. }
    cbn [empty].
    destruct (@for_each_extractable w (c :: cs) init_state)
      as (st & Hloop & Hdata & Hreq).
    { apply Forall_forall. intros row Hrow. now apply Hall. }
    rewrite Hloop.
    assert (Hnone : flat_map (scored w) (c :: cs) = []).
    { apply flat_map_all_nil. intros row Hrow. now apply Hall. }
    rewrite Hnone in Hdata. cbn in Hdata. rewrite Hdata. exists st.
    split; [reflexivity|]. split; [exact Hdata | exact Hreq].
  - repeat split; discriminate.
Qed.

Lemma fatal_emptiness_witness :
  run_fetch stable_sort (provider_with (inr []) (inr (HistFrame (rising_closes 25)))) =
  (error_envelope msg_empty_universe clock, init_state) /\
  run_fetch stable_sort
    (provider_with (inr [etf_c; etf_f]) (inr (HistFrame (rising_closes 25)))) =
  (error_envelope msg_no_candidates clock, init_state) /\
  exists st,
    run_fetch stable_sort
      (provider_with (inr [etf_a; etf_c]) (inr (HistFrame (rising_closes 19)))) =
    (error_envelope msg_empty_pool clock, st) /\
    result_data st = [] /\
    List.length (hist_requests st) =
    List.length (candidate_etfs_of stable_sort (valid_etfs_of [etf_a; etf_c])).
Proof.
  split; [|split].
  - apply (fatal_emptiness stable_sort
             (provider_with (inr []) (inr (HistFrame (rising_closes 25))))).
    reflexivity.
  - apply (fatal_emptiness stable_sort
             (provider_with (inr [etf_c; etf_f]) (inr (HistFrame (rising_closes 25))))
          ) with (etf_basic := [etf_c; etf_f]).
    + reflexivity.
    + discriminate.
    + vm_compute. reflexivity.
  - apply (fatal_emptiness stable_sort
             (provider_with (inr [etf_a; etf_c]) (inr (HistFrame (rising_closes 19))))
          ) with (etf_basic := [etf_a; etf_c]).
    + reflexivity.
    + vm_compute. discriminate.
    + intros row Hrow. vm_compute in Hrow. destruct Hrow as [<-|[]].
      split; [eexists|]; vm_compute; reflexivity.
Defined.

(* ================================================================== *)
(** ** The data of a success envelope (claim C9) *)
(* ================================================================== *)

Lemma extract_fields_change (row : Row) (f : Fields) :
  extract_fields row = inr f -> f_change f = col_change row.
Proof.
  unfold extract_fields.
  destruct (cell_strip (col_code row)); [discriminate|].
  destruct (cell_strip (col_name row)); [discriminate|].
  intros H. injection H as <-. reflexivity.
Qed.

(** A stored row has the change of the candidate it was built from. *)
Lemma scored_change (w : Provider) (row : Row) (r : RiskScore) :
  In r (scored w row) -> rs_change r = col_change row.
Proof.
  destruct (scored_cases w row) as [H|(f & sharpe & Hf & H)]; rewrite H.
  - contradiction.
  - intros [<-|[]]. cbn. now apply extract_fields_change.
Qed.

Lemma flat_map_scored_ordered (w : Provider) (rows : list Row) :
  ForallOrdPairs (fun a b => (col_change a <? col_change b)%float = false) rows ->
  ForallOrdPairs (fun r s => (rs_change r <? rs_change s)%float = false)
    (flat_map (scored w) rows).
Proof.
  induction 1 as [|a t Ha Ht IH]; cbn [flat_map]; [constructor|].
  destruct (scored_cases w a) as [H|(f & sharpe & Hf & H)].
  - rewrite H. exact IH.
  - assert (Hr : rs_change (score_row f sharpe) = col_change a).
    { apply (@scored_change w). rewrite H. now left. }
    rewrite H. cbn [app]. constructor; [|exact IH].
    apply Forall_forall. intros s Hs.
    apply in_flat_map in Hs. destruct Hs as (b & Hb & Hs).
    rewrite Hr, (scored_change _ _ _ Hs).
    rewrite Forall_forall in Ha. now apply Ha.
Qed.

(** C9. In a success envelope [count] is the length of [data], and [data]
    lists, candidate after candidate in the order of the ranking, the row of
    each candidate that was not skipped: a candidate contributes no row or
    the one row built from its own fields, so along [data] the change never
    increases. *)
Theorem success_data_in_rank_order
    (sv : SortValues) (w : Provider)
    (data : list RiskScore) (timestamp : string) (count : nat) :
  fetch_etf_data sv w =
  [("data"%string, VRows data); ("timestamp"%string, VStr timestamp);
   ("count"%string, VInt count)] ->
  count = List.length data /\
  exists etf_basic,
    fund_etf_category_sina w = inr etf_basic /\
    let candidate_etfs := candidate_etfs_of sv (valid_etfs_of etf_basic) in
    data = flat_map (scored w) candidate_etfs /\
    (forall row, In row candidate_etfs ->
       scored w row = [] \/
       exists f sharpe,
         extract_fields row = inr f /\ scored w row = [score_row f sharpe]) /\
    ForallOrdPairs (fun r s => (rs_change r <? rs_change s)%float = false) data.
Proof.
  unfold fetch_etf_data. rewrite run_fetch_cases.
  destruct (fund_etf_category_sina w) as [e|etf_basic]; [discriminate|].
  destruct (empty etf_basic); [discriminate|]. cbn zeta.
  destruct (empty (candidate_etfs_of sv (valid_etfs_of etf_basic))); [discriminate|].
  destruct (for_each (candidate_body w) _ init_state) as [[e|[]] st] eqn:El;
    [discriminate|].
  destruct (empty (result_data st)); [discriminate|].
  intros H. injection H as Hdata _ Hcount. subst data count.
  split; [reflexivity|]. exists etf_basic. split; [reflexivity|].
  destruct (for_each_extractable w init_state (for_each_returns_inv _ _ _ El))
    as (st2 & Hloop & Hres & _).
  rewrite El in Hloop. injection Hloop as <-.
  change (result_data init_state) with (@nil RiskScore) in Hres.
  cbn [app] in Hres. rewrite Hres.
  split; [reflexivity|]. split; [intros row _; apply scored_cases|].
  apply flat_map_scored_ordered, candidate_etfs_never_increase.
Qed.

Lemma success_data_in_rank_order_witness :
  let w := mixed_provider [etf_a; etf_c; etf_d; etf_b; etf_e; etf_h] in
  fetch_etf_data numpy_quicksort w =
  success_envelope
    [mkRiskScore "510300" "HS300" 4.5 1.5 2000 (173715 / 10000);
     mkRiskScore "159915" "CYB" 2.25 1.5 5000 (173715 / 10000)] clock /\
  candidate_etfs_of numpy_quicksort
    (valid_etfs_of [etf_a; etf_c; etf_d; etf_b; etf_e; etf_h]) =
  [etf_d; etf_a; etf_b; etf_h; etf_e] /\
  2 = List.length (flat_map (scored w)
        (candidate_etfs_of numpy_quicksort
           (valid_etfs_of [etf_a; etf_c; etf_d; etf_b; etf_e; etf_h]))).
Proof.
  cbn zeta.
  assert (Henv :
    fetch_etf_data numpy_quicksort
      (mixed_provider [etf_a; etf_c; etf_d; etf_b; etf_e; etf_h]) =
    [("data"%string,
      VRows [mkRiskScore "510300" "HS300" 4.5 1.5 2000 (173715 / 10000);
             mkRiskScore "159915" "CYB" 2.25 1.5 5000 (173715 / 10000)]);
     ("timestamp"%string, VStr clock); ("count"%string, VInt 2)]).
  { vm_compute. reflexivity. }
  destruct (success_data_in_rank_order _ _ Henv)
    as (Hcount & etf_basic & Hbasic & Hdata & _).
  injection Hbasic as <-.
  split; [exact Henv|]. split; [vm_compute; reflexivity|].
  rewrite <- Hdata. exact Hcount.
Defined.

(* ================================================================== *)
(** ** A candidate whose fields cannot be read (claim C10) *)
(* ================================================================== *)

(** C10. The field extraction of an iteration stands before its [try]
    statement. When the fields of a candidate cannot be extracted, the
    exception leaves the loop: the run returns the error envelope with the
    message of that exception, and its final state is the one the
    candidates before it left behind, so the candidates after it were
    neither requested nor scored. *)
Theorem extraction_failure_aborts_run
    (sv : SortValues) (w : Provider) (etf_basic : DataFrame)
    (pre post : list Row) (row : Row) (e : exn) :
  fund_etf_category_sina w = inr etf_basic ->
  candidate_etfs_of sv (valid_etfs_of etf_basic) = pre ++ row :: post ->
  Forall extractable pre ->
  extract_fields row = inl e ->
  run_fetch sv w =
  (error_envelope (str_exn e) (now_strftime w),
   snd (for_each (candidate_body w) pre init_state)) /\
  List.length (hist_requests (snd (run_fetch sv w))) = List.length pre /\
  result_data (snd (run_fetch sv w)) = flat_map (scored w) pre.
Proof.
  intros Hbasic Hcand Hpre Hrow.
  assert (Hrun : run_fetch sv w =
                 (error_envelope (str_exn e) (now_strftime w),
                  snd (for_each (candidate_body w) pre init_state))).
  { rewrite run_fetch_cases, Hbasic.
    destruct etf_basic as [|r0 t0].
    - rewrite (proj2 (candidate_etfs_nil sv (valid_etfs_of [])) eq_refl) in Hcand.
      now destruct pre.
    - cbn [empty]. cbn zeta. rewrite Hcand.
      replace (empty (pre ++ row :: post)) with false by now destruct pre.
      now rewrite (@for_each_raises w pre post row e init_state Hpre Hrow). }
  split; [exact Hrun|]. rewrite Hrun. cbn [snd].
  destruct (for_each_extractable w init_state Hpre) as (st & Hloop & Hdata & Hreq).
  rewrite Hloop. cbn [snd]. split; [exact Hreq | exact Hdata].
Qed.

Lemma extraction_failure_aborts_run_witness :
  let w := mixed_provider [etf_a; etf_g; etf_d; etf_b] in
  run_fetch stable_sort w =
  (error_envelope "'float' object has no attribute 'strip'" clock,
   snd (for_each (candidate_body w) [etf_d] init_state)) /\
  List.length (hist_requests (snd (run_fetch stable_sort w))) = 1.
Proof.
  cbn zeta.
  destruct (@extraction_failure_aborts_run stable_sort
              (mixed_provider [etf_a; etf_g; etf_d; etf_b])
              [etf_a; etf_g; etf_d; etf_b] [etf_d] [etf_a; etf_b] etf_g
              (AttributeError "'float' object has no attribute 'strip'"))
    as (Hrun & Hreq & _).
  - reflexivity.
  - vm_compute. reflexivity.
  - repeat constructor. eexists. vm_compute. reflexivity.
  - reflexivity.
  - split; [exact Hrun | exact Hreq].
Defined.

(** The same universe without the unreadable row runs to a success
    envelope with both later candidates scored; with it, the run stops at
    the second candidate and reports the exception. *)
Example extraction_failure_demo :
  keys (fetch_etf_data stable_sort (mixed_provider [etf_a; etf_d; etf_b])) =
  ["data"; "timestamp"; "count"]%string /\
  fetch_etf_data stable_sort (mixed_provider [etf_a; etf_g; etf_d; etf_b]) =
  error_envelope "'float' object has no attribute 'strip'" clock /\
  map fst (hist_requests
             (snd (run_fetch stable_sort (mixed_provider [etf_a; etf_g; etf_d; etf_b])))) =
  ["sh511010"%string].
Proof. vm_compute. repeat split; reflexivity. Qed.

(* ================================================================== *)
(** ** Further properties of the filter and of the ranking cut *)
(* ================================================================== *)

(** A comparison with a NaN on the right is false. *)
Lemma ltb_nan_r (a b : float) : is_nan b = true -> (a <? b)%float = false.
Proof.
  intros Hb. apply na_last_ge_not_lt. unfold na_last_ge. now rewrite Hb.
Qed.

(** X1. Lines 29-32: a row whose turnover or price is missing never passes the
    filter, since a comparison with NaN is false. *)
Theorem missing_values_never_qualify (etf_basic : DataFrame) :
  Forall (fun e => is_nan (col_turnover e) = false /\ is_nan (col_price e) = false)
    (valid_etfs_of etf_basic).
Proof.
  rewrite valid_etfs_filter. apply Forall_forall. intros e He.
  apply filter_In in He. destruct He as [_ Hq].
  unfold qualifies in Hq. apply andb_true_iff in Hq. destruct Hq as [Ht Hp].
  split.
  - destruct (is_nan (col_turnover e)) eqn:E; [|reflexivity].
    rewrite (ltb_nan_r _ _ E) in Ht. discriminate Ht.
  - destruct (is_nan (col_price e)) eqn:E; [|reflexivity].
    rewrite (ltb_nan_r _ _ E) in Hp. discriminate Hp.
Qed.

Lemma ForallOrdPairs_app_inv (A : Type) (R : A -> A -> Prop) (l1 l2 : list A) :
  ForallOrdPairs R (l1 ++ l2) -> Forall (fun a => Forall (R a) l2) l1.
Proof.
  induction l1 as [|a t IH]; intros H; [constructor|].
  cbn [app] in H. inversion H as [|x l Hx Hl]; subst.
  constructor; [|now apply IH].
  now apply Forall_app in Hx.
Qed.

(** X2. Line 35: the cut keeps the best rows. The rows that [head(50)] drops
    together with the candidates are the filtered rows, and no dropped row
    has a greater change than a candidate, nor a change where a candidate
    has none. *)
Theorem no_dropped_row_outranks_a_candidate (sv : SortValues) (valid_etfs : DataFrame) :
  let dropped := skipn 50 (sort_values_desc sv valid_etfs) in
  Permutation valid_etfs (candidate_etfs_of sv valid_etfs ++ dropped) /\
  Forall
    (fun a =>
       Forall
         (fun b =>
            (col_change a <? col_change b)%float = false /\
            (is_nan (col_change a) = true -> is_nan (col_change b) = true))
         dropped)
    (candidate_etfs_of sv valid_etfs).
Proof.
  cbn zeta. unfold candidate_etfs_of, head. split.
  - rewrite firstn_skipn. apply sort_values_perm.
  - pose proof (sort_values_ordered sv valid_etfs) as Ho.
    rewrite <- (firstn_skipn 50 (sort_values_desc sv valid_etfs)) in Ho.
    apply ForallOrdPairs_app_inv in Ho.
    eapply Forall_impl; [|exact Ho]. intros a Ha.
    eapply Forall_impl; [|exact Ha]. intros b Hab. split.
    + now apply na_last_ge_not_lt.
    + now apply na_last_ge_nan.
Qed.

(** X3. Line 35: with at most 50 filtered rows the cut drops nothing; the
    candidates are the filtered rows, rearranged. *)
Theorem small_universe_keeps_every_row (sv : SortValues) (valid_etfs : DataFrame) :
  List.length valid_etfs <= 50 ->
  Permutation valid_etfs (candidate_etfs_of sv valid_etfs).
Proof.
  intros Hlen. unfold candidate_etfs_of, head.
  pose proof (sort_values_perm sv valid_etfs) as Hp.
  rewrite firstn_all2; [exact Hp|].
  now rewrite <- (Permutation_length Hp).
Qed.

Lemma small_universe_keeps_every_row_witness :
  List.length [etf_a; etf_e; etf_d] <= 50 /\
  Permutation [etf_a; etf_e; etf_d]
    (candidate_etfs_of numpy_quicksort [etf_a; etf_e; etf_d]).
Proof.
  assert (H : List.length [etf_a; etf_e; etf_d] <= 50) by (cbn; lia).
  split; [exact H|].
  exact (small_universe_keeps_every_row numpy_quicksort [etf_a; etf_e; etf_d] H).
Defined.

Lemma filter_permutation (A : Type) (p : A -> bool) (l l' : list A) :
  Permutation l l' -> Permutation (filter p l) (filter p l').
Proof.
  induction 1 as [|x l l' H IH|x y l|l l' l'' H1 IH1 H2 IH2]; cbn.
  - constructor.
  - destruct (p x); [now constructor | exact IH].
  - destruct (p x), (p y); try reflexivity. apply perm_swap.
  - now transitivity (filter p l').
Qed.

(** The rows whose change is present. *)
Definition has_change (row : Row) : bool := negb (is_nan (col_change row)).

Lemma nan_change_is_followed_by_nan (x : Row) (t : DataFrame) :
  Forall (change_ge x) t -> has_change x = false -> filter has_change t = [].
Proof.
  intros Hx Ex. unfold has_change in Ex. apply negb_false_iff in Ex.
  induction Hx as [|y t' Hy Hx' IH]; [reflexivity|].
  cbn [filter]. unfold has_change at 1.
  rewrite (na_last_ge_nan _ _ Hy Ex). exact IH.
Qed.

Lemma ordered_prefix_has_change (l : DataFrame) (n : nat) :
  ForallOrdPairs change_ge l ->
  n <= List.length (filter has_change l) ->
  Forall (fun row => has_change row = true) (firstn n l).
Proof.
  intros Ho. revert n. induction Ho as [|x t Hx Ht IH]; intros n Hn.
  - rewrite firstn_nil. constructor.
  - destruct n as [|n]; [constructor|]. cbn [firstn].
    cbn [filter] in Hn. destruct (has_change x) eqn:Ex.
    + constructor; [exact Ex|]. apply IH. cbn in Hn. lia.
    + rewrite (nan_change_is_followed_by_nan Hx Ex) in Hn. cbn in Hn. lia.
Qed.

(** X4. Line 35: rows without a change are ranked last, so they are the first
    the cut drops: when at least 50 filtered rows have a change, every
    candidate has one. *)
Theorem missing_change_is_cut_first (sv : SortValues) (valid_etfs : DataFrame) :
  50 <= List.length (filter has_change valid_etfs) ->
  Forall (fun row => is_nan (col_change row) = false)
    (candidate_etfs_of sv valid_etfs).
Proof.
  intros Hn. unfold candidate_etfs_of, head.
  eapply Forall_impl;
    [|apply ordered_prefix_has_change; [apply sort_values_ordered|]].
  - intros row Hrow. unfold has_change in Hrow. now apply negb_true_iff.
  - rewrite <- (Permutation_length
                  (filter_permutation has_change (sort_values_perm sv valid_etfs))).
    exact Hn.
Qed.

(** A row without a change, with enough turnover and a price. *)
Definition etf_no_change : Row := mkRow (CellStr "510500") (CellStr "ZZ500") 6.5 nan 9000.

Lemma missing_change_is_cut_first_witness :
  50 <= List.length (filter has_change (etf_no_change :: repeat etf_a 50)) /\
  Forall (fun row => is_nan (col_change row) = false)
    (candidate_etfs_of stable_sort (etf_no_change :: repeat etf_a 50)).
Proof.
  assert (H : 50 <= List.length (filter has_change (etf_no_change :: repeat etf_a 50)))
    by (vm_compute; lia).
  split; [exact H|].
  exact (missing_change_is_cut_first stable_sort (etf_no_change :: repeat etf_a 50) H).
Defined.

(* ================================================================== *)
(** ** Further properties of the loop: requests and diagnostics *)
(* ================================================================== *)

(** The symbol an iteration works with (line 42), for a row whose code is
    a [str]. *)
Definition symbol_of (row : Row) : string :=
  match col_code row with
  | CellStr s => strip s
  | CellNaN => EmptyString
  end.

(** The request an iteration sends (lines 49-54). *)
Definition request_of (row : Row) : string * string :=
  (ak_symbol_of (symbol_of row), "qfq"%string).

(** A request as the program forms it: front-adjusted, and for a symbol
    with the prefix [sh] when it starts with [5], [sz] otherwise. *)
Definition well_formed_request (rq : string * string) : Prop :=
  snd rq = "qfq"%string /\
  exists symbol,
    (fst rq = ("sh" ++ symbol)%string /\ startswith symbol "5" = true) \/
    (fst rq = ("sz" ++ symbol)%string /\ startswith symbol "5" = false).

Lemma extract_fields_inv (row : Row) (f : Fields) :
  extract_fields row = inr f ->
  exists s n,
    col_code row = CellStr s /\ col_name row = CellStr n /\
    f = mkFields (strip s) (strip n) (col_price row) (col_change row)
          (col_turnover row).
Proof.
  unfold extract_fields, cell_strip, py_float.
  destruct (col_code row) as [s|]; [|discriminate].
  destruct (col_name row) as [n|]; [|discriminate].
  intros H. injection H as <-. now exists s, n.
Qed.

Lemma extract_fields_symbol (row : Row) (f : Fields) :
  extract_fields row = inr f -> f_symbol f = symbol_of row.
Proof.
  intros H. destruct (extract_fields_inv _ H) as (s & n & Hs & _ & ->).
  unfold symbol_of. now rewrite Hs.
Qed.

Lemma ak_symbol_well_formed (symbol : string) :
  well_formed_request (ak_symbol_of symbol, "qfq"%string).
Proof.
  split; [reflexivity|]. exists symbol. unfold ak_symbol_of. cbn [fst].
  destruct (startswith symbol "5"); [left | right]; now split.
Qed.

(** An iteration that gets to its [try] statement sends one request and
    ends with one more stored row or one more printed line. *)
Lemma score_candidate_accounting
    (w : Provider) (f : Fields) (ak_symbol : string) (st : State) :
  let st' := snd (score_candidate w f ak_symbol st) in
  List.length (result_data st') + List.length (stdout st') =
  S (List.length (result_data st) + List.length (stdout st)).
Proof.
  cbn zeta. rewrite score_candidate_unfold.
  destruct (fund_etf_hist_sina w ak_symbol "qfq") as [e|h].
  - cbn. rewrite List.length_app. cbn. lia.
  - destruct (len h <? 20).
    + cbn. rewrite List.length_app. cbn. lia.
    + destruct (calculate_sharpe_ratio h); cbn; rewrite List.length_app; cbn; lia.
Qed.

(** The state after any number of iterations, complete or cut short by an
    exception: its requests are those of the start followed by well-formed
    ones, at most one per row, and each new request is matched by one stored
    row or one printed line. *)
Lemma for_each_progress (w : Provider) (rows : list Row) (st : State) :
  let st' := snd (for_each (candidate_body w) rows st) in
  exists k,
    k <= List.length rows /\
    List.length (hist_requests st') = List.length (hist_requests st) + k /\
    List.length (result_data st') + List.length (stdout st') =
    List.length (result_data st) + List.length (stdout st) + k /\
    (Forall well_formed_request (hist_requests st) ->
     Forall well_formed_request (hist_requests st')).
Proof.
  cbn zeta. revert st. induction rows as [|row t IH]; intros st.
  - exists 0. cbn. repeat split; try lia. auto.
  - rewrite for_each_cons, candidate_body_unfold.
    destruct (extract_fields row) as [e|f].
    + exists 0. cbn. repeat split; try lia. auto.
    + pose proof (score_candidate_returns w f (ak_symbol_of (f_symbol f)) st) as Hr.
      pose proof (score_candidate_requests w f (ak_symbol_of (f_symbol f)) st) as Hq.
      pose proof (score_candidate_accounting w f (ak_symbol_of (f_symbol f)) st) as Ha.
      cbn zeta in Ha.
      destruct (score_candidate w f (ak_symbol_of (f_symbol f)) st) as [r st1].
      cbn [fst snd] in *. subst r.
      destruct (IH st1) as (k & Hk & Hreq & Hacc & Hwf).
      exists (S k). cbn [List.length]. split; [lia|]. split; [|split].
      * rewrite Hreq, Hq, List.length_app. cbn. lia.
      * rewrite Hacc, Ha. lia.
      * intros Hst. apply Hwf. rewrite Hq. apply Forall_app. split; [exact Hst|].
        constructor; [apply ak_symbol_well_formed | constructor].
Qed.

(** A loop over extractable rows sends their requests in order, one per
    row, and stores a row or prints a line for each. *)
Lemma for_each_extractable_trace (w : Provider) (rows : list Row) (st : State) :
  Forall extractable rows ->
  let st' := snd (for_each (candidate_body w) rows st) in
  hist_requests st' = hist_requests st ++ map request_of rows /\
  List.length (result_data st') + List.length (stdout st') =
  List.length (result_data st) + List.length (stdout st) + List.length rows.
Proof.
  cbn zeta. intros H. revert st. induction H as [|row t Hrow Ht IH]; intros st.
  - cbn. rewrite List.app_nil_r. split; [reflexivity | lia].
  - rewrite for_each_cons, candidate_body_unfold.
    destruct Hrow as [f Hf]. rewrite Hf.
    pose proof (score_candidate_returns w f (ak_symbol_of (f_symbol f)) st) as Hr.
    pose proof (score_candidate_requests w f (ak_symbol_of (f_symbol f)) st) as Hq.
    pose proof (score_candidate_accounting w f (ak_symbol_of (f_symbol f)) st) as Ha.
    cbn zeta in Ha.
    destruct (score_candidate w f (ak_symbol_of (f_symbol f)) st) as [r st1].
    cbn [fst snd] in *. subst r.
    destruct (IH st1) as [Hreq Hacc]. split.
    + rewrite Hreq, Hq, <- List.app_assoc. cbn [map app].
      unfold request_of at 2. now rewrite (extract_fields_symbol _ Hf).
    + rewrite Hacc, Ha. cbn [List.length]. lia.
Qed.

Lemma candidate_etfs_length (sv : SortValues) (valid_etfs : DataFrame) :
  List.length (candidate_etfs_of sv valid_etfs) = Nat.min 50 (List.length valid_etfs).
Proof.
  unfold candidate_etfs_of, head. rewrite length_firstn.
  now rewrite <- (Permutation_length (sort_values_perm sv valid_etfs)).
Qed.

(** X5. Lines 35-72, every run: whatever the provider answers and however the
    run ends, it sends at most 50 history requests, each of them front
    adjusted and with the exchange prefix, and each request is matched by
    exactly one stored row or one printed diagnostic. *)
Theorem every_run_sends_at_most_50_requests (sv : SortValues) (w : Provider) :
  let st := snd (run_fetch sv w) in
  List.length (hist_requests st) <= 50 /\
  List.length (result_data st) + List.length (stdout st) =
  List.length (hist_requests st) /\
  Forall well_formed_request (hist_requests st).
Proof.
  cbn zeta. rewrite run_fetch_cases.
  destruct (fund_etf_category_sina w) as [e|etf_basic];
    [cbn; repeat split; [lia | constructor]|].
  destruct (empty etf_basic); [cbn; repeat split; [lia | constructor]|].
  cbn zeta.
  destruct (empty (candidate_etfs_of sv (valid_etfs_of etf_basic)));
    [cbn; repeat split; [lia | constructor]|].
  destruct (for_each_progress w (candidate_etfs_of sv (valid_etfs_of etf_basic))
              init_state) as (k & Hk & Hreq & Hacc & Hwf).
  rewrite candidate_etfs_length in Hk.
  assert (Hall :
    List.length (hist_requests
      (snd (for_each (candidate_body w)
              (candidate_etfs_of sv (valid_etfs_of etf_basic)) init_state))) <= 50 /\
    List.length (result_data
      (snd (for_each (candidate_body w)
              (candidate_etfs_of sv (valid_etfs_of etf_basic)) init_state))) +
    List.length (stdout
      (snd (for_each (candidate_body w)
              (candidate_etfs_of sv (valid_etfs_of etf_basic)) init_state))) =
    List.length (hist_requests
      (snd (for_each (candidate_body w)
              (candidate_etfs_of sv (valid_etfs_of etf_basic)) init_state))) /\
    Forall well_formed_request (hist_requests
      (snd (for_each (candidate_body w)
              (candidate_etfs_of sv (valid_etfs_of etf_basic)) init_state)))).
  { split; [|split].
    - rewrite Hreq. cbn. lia.
    - rewrite Hacc, Hreq. cbn. lia.
    - apply Hwf. constructor. }
  destruct (for_each (candidate_body w) _ init_state) as [[e|u] st];
    cbn [snd] in *; [exact Hall|].
  destruct (empty (result_data st)); exact Hall.
Qed.

(** X6. Lines 41-72, a run whose candidates all have readable fields: the
    history requests are those of the candidates, one each and in ranking
    order, whether the candidate ends up stored or skipped, and the stored
    rows and the printed diagnostics together are as many as the
    candidates. *)
Theorem complete_run_requests_every_candidate
    (sv : SortValues) (w : Provider) (etf_basic : DataFrame) :
  fund_etf_category_sina w = inr etf_basic ->
  Forall extractable (candidate_etfs_of sv (valid_etfs_of etf_basic)) ->
  let candidate_etfs := candidate_etfs_of sv (valid_etfs_of etf_basic) in
  let st := snd (run_fetch sv w) in
  hist_requests st = map request_of candidate_etfs /\
  List.length (result_data st) + List.length (stdout st) =
  List.length candidate_etfs.
Proof.
  intros Hbasic Hx. cbn zeta. rewrite run_fetch_cases, Hbasic.
  destruct etf_basic as [|r0 t0].
  { cbn [empty snd].
    rewrite (proj2 (candidate_etfs_nil sv (valid_etfs_of [])) eq_refl).
    split; reflexivity. }
  cbn [empty]. cbn zeta.
  destruct (candidate_etfs_of sv (valid_etfs_of (r0 :: t0))) as [|c cs] eqn:Ec;
    [split; reflexivity|].
  cbn [empty].
  destruct (for_each_extractable_trace w init_state Hx) as [Hreq Hacc].
  destruct (for_each (candidate_body w) (c :: cs) init_state) as [[e|u] st];
    cbn [snd] in *.
  - split; [exact Hreq | exact Hacc].
  - destruct (empty (result_data st)); cbn [snd]; split; assumption.
Qed.

Lemma complete_run_requests_every_candidate_witness :
  let w := mixed_provider [etf_a; etf_c; etf_d; etf_b; etf_e; etf_h] in
  hist_requests (snd (run_fetch stable_sort w)) =
  [("sh511010", "qfq"); ("sh510300", "qfq"); ("sz159915", "qfq");
   ("sh513100", "qfq"); ("sh518880", "qfq")]%string /\
  List.length (result_data (snd (run_fetch stable_sort w))) +
  List.length (stdout (snd (run_fetch stable_sort w))) = 5.
Proof.
  cbn zeta.
  destruct (@complete_run_requests_every_candidate stable_sort
              (mixed_provider [etf_a; etf_c; etf_d; etf_b; etf_e; etf_h])
              [etf_a; etf_c; etf_d; etf_b; etf_e; etf_h])
    as [Hreq Hacc].
  - reflexivity.
  - apply Forall_forall. intros row Hrow. vm_compute in Hrow.
    repeat (destruct Hrow as [<-|Hrow]; [eexists; vm_compute; reflexivity|]).
    contradiction.
  - split.
    + rewrite Hreq. vm_compute. reflexivity.
    + rewrite Hacc. vm_compute. reflexivity.
Defined.

(* ================================================================== *)
(** ** Further properties of the returned envelope *)
(* ================================================================== *)

(** Where a stored row comes from: the history request of its candidate
    returned at least 20 bars, and the Sharpe computation on them returned
    the number that was rounded into the row. *)
Lemma scored_inv (w : Provider) (row : Row) (r : RiskScore) :
  In r (scored w row) ->
  exists f h x,
    extract_fields row = inr f /\
    fund_etf_hist_sina w (ak_symbol_of (f_symbol f)) "qfq" = inr h /\
    20 <= len h /\
    calculate_sharpe_ratio h = inr x /\
    r = score_row f x.
Proof.
  unfold scored. rewrite candidate_body_unfold.
  destruct (extract_fields row) as [e|f]; [contradiction|].
  rewrite score_candidate_unfold.
  destruct (fund_etf_hist_sina w (ak_symbol_of (f_symbol f)) "qfq") as [e|h] eqn:Eh;
    [contradiction|].
  destruct (len h <? 20) eqn:El; [contradiction|].
  destruct (calculate_sharpe_ratio h) as [e|x] eqn:Ec; [contradiction|].
  cbn. intros [<-|[]]. exists f, h, x. apply Nat.ltb_ge in El. now repeat split.
Qed.

Lemma scored_length (w : Provider) (rows : list Row) :
  List.length (flat_map (scored w) rows) <= List.length rows.
Proof.
  induction rows as [|row t IH]; [constructor|].
  cbn [flat_map]. rewrite List.length_app. cbn [List.length].
  destruct (scored_cases w row) as [H|(f & sharpe & _ & H)]; rewrite H; cbn; lia.
Qed.

(** What a success envelope tells about the run that returned it. *)
Lemma success_envelope_inv
    (sv : SortValues) (w : Provider) (data : list RiskScore)
    (timestamp : string) (count : nat) :
  fetch_etf_data sv w =
  [("data"%string, VRows data); ("timestamp"%string, VStr timestamp);
   ("count"%string, VInt count)] ->
  exists etf_basic,
    fund_etf_category_sina w = inr etf_basic /\
    data = flat_map (scored w) (candidate_etfs_of sv (valid_etfs_of etf_basic)) /\
    data <> [] /\ count = List.length data /\ timestamp = now_strftime w.
Proof.
  unfold fetch_etf_data. rewrite run_fetch_cases.
  destruct (fund_etf_category_sina w) as [e|etf_basic]; [discriminate|].
  destruct (empty etf_basic); [discriminate|]. cbn zeta.
  destruct (empty (candidate_etfs_of sv (valid_etfs_of etf_basic))); [discriminate|].
  destruct (for_each (candidate_body w) _ init_state) as [[e|[]] st] eqn:El;
    [discriminate|].
  destruct (empty (result_data st)) eqn:Ee; [discriminate|].
  intros H. injection H as Hdata Hts Hcount. subst data count timestamp.
  exists etf_basic. split; [reflexivity|].
  destruct (for_each_extractable w init_state (for_each_returns_inv _ _ _ El))
    as (st2 & Hloop & Hres & _).
  rewrite El in Hloop. injection Hloop as <-.
  change (result_data init_state) with (@nil RiskScore) in Hres.
  cbn [app] in Hres.
  split; [exact Hres|]. split; [now apply empty_false|]. now split.
Qed.

(** X7. Lines 29-69: every row of [data] in a success envelope is built from a
    row of the snapshot that passed the filter, so its turnover is above
    1000 and its price above 0; its symbol and name are the stripped cells
    of that row; and its score is the rounded result of the Sharpe
    computation on a history of at least 20 bars, requested under the
    symbol with its exchange prefix. *)
Theorem data_rows_come_from_qualifying_rows
    (sv : SortValues) (w : Provider) (data : list RiskScore) (timestamp : string) :
  fetch_etf_data sv w = success_envelope data timestamp ->
  exists etf_basic,
    fund_etf_category_sina w = inr etf_basic /\
    Forall
      (fun r =>
         (1000 <? rs_turnover r)%float = true /\
         (0 <? rs_price r)%float = true /\
         exists row s n h x,
           In row etf_basic /\
           col_code row = CellStr s /\ col_name row = CellStr n /\
           fund_etf_hist_sina w (ak_symbol_of (strip s)) "qfq" = inr h /\
           20 <= len h /\
           calculate_sharpe_ratio h = inr x /\
           r = mkRiskScore (strip s) (strip n) (col_price row) (col_change row)
                 (col_turnover row) (round4 x))
      data.
Proof.
  intros Henv. unfold success_envelope in Henv.
  destruct (success_envelope_inv _ _ Henv) as (etf_basic & Hb & Hdata & _).
  exists etf_basic. split; [exact Hb|].
  apply Forall_forall. intros r Hr. rewrite Hdata in Hr.
  apply in_flat_map in Hr. destruct Hr as (row & Hrow & Hr).
  assert (Hq : In row etf_basic /\ qualifies row = true).
  { unfold candidate_etfs_of, head in Hrow.
    assert (Hs : In row (sort_values_desc sv (valid_etfs_of etf_basic))).
    { rewrite <- (firstn_skipn 50 (sort_values_desc sv (valid_etfs_of etf_basic))).
      apply in_or_app. now left. }
    apply (Permutation_in _ (Permutation_sym (sort_values_perm sv _))) in Hs.
    rewrite valid_etfs_filter in Hs. now apply filter_In in Hs. }
  destruct Hq as [Hin Hq]. unfold qualifies in Hq. apply andb_true_iff in Hq.
  destruct (scored_inv _ _ _ Hr) as (f & h & x & Hf & Hh & Hlen & Hx & ->).
  destruct (extract_fields_inv _ Hf) as (s & n & Hs & Hn & ->).
  cbn. split; [apply Hq|]. split; [apply Hq|].
  exists row, s, n, h, x. now repeat split.
Qed.

Lemma data_rows_come_from_qualifying_rows_witness :
  Forall (fun r => (1000 <? rs_turnover r)%float = true /\ (0 <? rs_price r)%float = true)
    [mkRiskScore "510300" "HS300" 4.5 1.5 2000 (173715 / 10000);
     mkRiskScore "159915" "CYB" 2.25 1.5 5000 (173715 / 10000)].
Proof.
  assert (Henv :
    fetch_etf_data stable_sort
      (mixed_provider [etf_a; etf_c; etf_d; etf_b; etf_e; etf_h]) =
    success_envelope
      [mkRiskScore "510300" "HS300" 4.5 1.5 2000 (173715 / 10000);
       mkRiskScore "159915" "CYB" 2.25 1.5 5000 (173715 / 10000)] clock).
  { vm_compute. reflexivity. }
  destruct (data_rows_come_from_qualifying_rows _ _ Henv) as (etf_basic & _ & Hall).
  eapply Forall_impl; [|exact Hall].
  intros r (Ht & Hp & _). now split.
Defined.

(** X8. Lines 35-82: the [count] of a success envelope is at least 1 and at
    most 50, and never more than the number of rows that passed the
    filter. *)
Theorem success_count_is_between_1_and_50
    (sv : SortValues) (w : Provider) (data : list RiskScore)
    (timestamp : string) (count : nat) :
  fetch_etf_data sv w =
  [("data"%string, VRows data); ("timestamp"%string, VStr timestamp);
   ("count"%string, VInt count)] ->
  1 <= count <= 50 /\
  exists etf_basic,
    fund_etf_category_sina w = inr etf_basic /\
    count <= List.length (valid_etfs_of etf_basic) <= List.length etf_basic.
Proof.
  intros Henv.
  destruct (success_envelope_inv _ _ Henv) as (etf_basic & Hb & Hdata & Hne & -> & _).
  assert (Hlen : List.length data <=
                 Nat.min 50 (List.length (valid_etfs_of etf_basic))).
  { rewrite Hdata, <- (candidate_etfs_length sv). apply scored_length. }
  split.
  - split; [|lia]. destruct data; [contradiction | cbn; lia].
  - exists etf_basic. split; [exact Hb|]. split; [lia|].
    rewrite valid_etfs_filter. apply filter_length_le.
Qed.

Lemma success_count_is_between_1_and_50_witness : 1 <= 2 <= 50.
Proof.
  assert (Henv :
    fetch_etf_data stable_sort
      (mixed_provider [etf_a; etf_c; etf_d; etf_b; etf_e; etf_h]) =
    [("data"%string,
      VRows [mkRiskScore "510300" "HS300" 4.5 1.5 2000 (173715 / 10000);
             mkRiskScore "159915" "CYB" 2.25 1.5 5000 (173715 / 10000)]);
     ("timestamp"%string, VStr clock); ("count"%string, VInt 2)]).
  { vm_compute. reflexivity. }
  exact (proj1 (success_count_is_between_1_and_50 _ _ Henv)).
Defined.

(** X9. Lines 24-37: a run whose snapshot request raises, or whose
    snapshot holds no row that passes the filter (an empty snapshot is one),
    returns an error envelope without having sent a history request or
    printed a line. *)
Theorem no_request_without_a_qualifying_row (sv : SortValues) (w : Provider) :
  (forall etf_basic,
     fund_etf_category_sina w = inr etf_basic -> valid_etfs_of etf_basic = []) ->
  hist_requests (snd (run_fetch sv w)) = [] /\
  stdout (snd (run_fetch sv w)) = [] /\
  exists error, fetch_etf_data sv w = error_envelope error (now_strftime w).
Proof.
  intros H. unfold fetch_etf_data. rewrite run_fetch_cases.
  destruct (fund_etf_category_sina w) as [e|etf_basic];
    [repeat split; now eexists|].
  destruct (empty etf_basic); [repeat split; now eexists|]. cbn zeta.
  rewrite (H etf_basic eq_refl).
  rewrite (proj2 (candidate_etfs_nil sv []) eq_refl).
  repeat split; now eexists.
Qed.

Lemma no_request_without_a_qualifying_row_witness :
  hist_requests
    (snd (run_fetch stable_sort
            (provider_with (inl (ProviderError "connection refused"))
               (inr (HistFrame (rising_closes 25)))))) = [] /\
  hist_requests
    (snd (run_fetch stable_sort
            (provider_with (inr [etf_c; etf_f])
               (inr (HistFrame (rising_closes 25)))))) = [].
Proof.
  split.
  - apply (@no_request_without_a_qualifying_row stable_sort
             (provider_with (inl (ProviderError "connection refused"))
                (inr (HistFrame (rising_closes 25))))).
    intros etf_basic H. discriminate H.
  - apply (@no_request_without_a_qualifying_row stable_sort
             (provider_with (inr [etf_c; etf_f])
                (inr (HistFrame (rising_closes 25))))).
    intros etf_basic H. injection H as <-. vm_compute. reflexivity.
Defined.

(* ================================================================== *)
(** ** A flat history *)
(* ================================================================== *)

(** A zero divided by a float is a zero of either sign, or NaN. *)
Lemma zero_div_cases (x : float) :
  (0 / x =? 0)%float = true ->
  (0 / x)%float = 0%float \/ (0 / x)%float = (-0)%float.
Proof.
  intros Hz. pose proof (SF2Prim_Prim2SF (0 / x)%float) as H.
  rewrite div_spec in H.
  change (Prim2SF 0) with (S754_zero false) in H.
  destruct (Prim2SF x) as [s|s| |s m e]; cbn in H;
    try (rewrite <- H in Hz; discriminate Hz);
    destruct s; cbn in H; auto.
Qed.

(** [div_ok_from x k]: zero divided by each of [x + 1], ..., [x + k] is
    zero. *)
Fixpoint div_ok_from (x : float) (k : nat) : bool :=
  match k with
  | O => true
  | S k' => (0 / (x + 1) =? 0)%float && div_ok_from (x + 1)%float k'
  end.

Lemma div_ok_from_spec (k m : nat) :
  div_ok_from (float_of_nat m) k = true ->
  forall j, m < j <= m + k -> (0 / float_of_nat j =? 0)%float = true.
Proof.
  revert m. induction k as [|k IH]; intros m H j Hj; [lia|].
  cbn [div_ok_from] in H. apply andb_true_iff in H. destruct H as [H1 H2].
  destruct (Nat.eq_dec j (S m)) as [->|Hne]; [exact H1|].
  apply (IH (S m) H2). lia.
Qed.

Lemma div_ok_up_to_10000 : div_ok_from 0 (100 * 100) = true.
Proof. vm_compute. reflexivity. Qed.

Lemma zero_div_count (j : nat) :
  0 < j <= 100 * 100 -> (0 / float_of_nat j =? 0)%float = true.
Proof.
  intros Hj. apply (@div_ok_from_spec (100 * 100) 0 div_ok_up_to_10000). lia.
Qed.

(** The pairwise sum of zeros is zero, however the array is cut. *)
Lemma firstn_repeat_min (A : Type) (x : A) (n k : nat) :
  firstn n (repeat x k) = repeat x (Nat.min n k).
Proof.
  revert k. induction n as [|n IH]; intros [|k]; cbn; try reflexivity.
  now rewrite IH.
Qed.

Lemma skipn_repeat_sub (A : Type) (x : A) (n k : nat) :
  skipn n (repeat x k) = repeat x (k - n).
Proof.
  revert k. induction n as [|n IH]; intros [|k]; cbn; try reflexivity.
  apply IH.
Qed.

Lemma sum_unrolled_zeros (k : nat) :
  sum_unrolled 0 0 0 0 0 0 0 0 (repeat 0%float k) = 0%float.
Proof.
  induction k as [k IH] using lt_wf_ind.
  do 8 (destruct k as [|k]; [reflexivity|]).
  cbn [repeat sum_unrolled].
  change (0 + 0)%float with 0%float. apply IH. lia.
Qed.

Lemma sum_block_zeros (k : nat) : 1 <= k -> sum_block (repeat 0%float k) = 0%float.
Proof.
  intros Hk. destruct k as [|k]; [lia|].
  do 7 (destruct k as [|k]; [reflexivity|]).
  cbn [repeat sum_block]. apply sum_unrolled_zeros.
Qed.

Lemma pairwise_sum_zeros (depth k : nat) :
  1 <= k -> pairwise_sum depth (repeat 0%float k) = 0%float.
Proof.
  revert k. induction depth as [|d IH]; intros k Hk; [now apply sum_block_zeros|].
  cbn [pairwise_sum]. rewrite repeat_length.
  destruct (k <=? PW_BLOCKSIZE) eqn:E; [now apply sum_block_zeros|].
  apply Nat.leb_gt in E. unfold PW_BLOCKSIZE in E.
  cbn zeta. rewrite firstn_repeat_min, skipn_repeat_sub.
  assert (H2 : 64 <= k / 2) by (apply Nat.div_le_lower_bound; lia).
  assert (Hm : (k / 2) mod 8 < 8) by (apply Nat.mod_upper_bound; lia).
  assert (Hh : k / 2 < k) by (apply Nat.div_lt; lia).
  rewrite (IH (Nat.min _ k)) by lia. rewrite (IH (k - _)) by lia. reflexivity.
Qed.

Lemma sum_zeros (k : nat) : sum (repeat 0%float k) = 0%float.
Proof.
  destruct k as [|k]; [reflexivity|].
  unfold sum. cbn [repeat]. change (0%float :: repeat 0%float k) with (repeat 0%float (S k)).
  rewrite pairwise_sum_zeros by lia. reflexivity.
Qed.

Lemma dropna_zeros (k : nat) : dropna (repeat 0%float k) = repeat 0%float k.
Proof.
  unfold dropna. induction k as [|k IH]; [reflexivity|].
  cbn [repeat filter]. change (negb (is_nan 0)) with true. cbn iota. now rewrite IH.
Qed.

Lemma pct_change_from_flat (c : float) (k : nat) :
  (c / c)%float = 1%float -> pct_change_from c (repeat c k) = repeat 0%float k.
Proof.
  intros Hc. induction k as [|k IH]; [reflexivity|].
  cbn [repeat pct_change_from]. rewrite Hc, IH. reflexivity.
Qed.

Lemma returns_of_flat (c : float) (n : nat) :
  (c / c)%float = 1%float -> returns_of (repeat c n) = repeat 0%float (n - 1).
Proof.
  intros Hc. destruct n as [|k]; [reflexivity|].
  replace (S k - 1) with k by lia.
  unfold returns_of. cbn [repeat pct_change].
  rewrite (pct_change_from_flat k Hc). unfold dropna. cbn [filter].
  change (negb (is_nan nan)) with false. cbn iota.
  apply dropna_zeros.
Qed.

(** Returns that are all zero have zero volatility. *)
Lemma volatility_zeros (k : nat) :
  2 <= k <= 100 * 100 -> (volatility_of (repeat 0%float k) =? 0)%float = true.
Proof.
  intros Hk. unfold volatility_of, std, var, mean.
  rewrite repeat_length.
  replace (k <=? 1) with false by (symmetry; apply Nat.leb_gt; lia).
  rewrite sum_zeros.
  assert (Hm : (0 / float_of_nat k =? 0)%float = true) by (apply zero_div_count; lia).
  assert (Hv : (0 / float_of_nat (k - 1) =? 0)%float = true)
    by (apply zero_div_count; lia).
  assert (Hmap : map (fun x => ((0 / float_of_nat k - x) * (0 / float_of_nat k - x))%float)
                   (repeat 0%float k) = repeat 0%float k).
  { rewrite map_repeat. f_equal.
    destruct (zero_div_cases Hm) as [->| ->]; reflexivity. }
  rewrite Hmap, sum_zeros.
  destruct (zero_div_cases Hv) as [->| ->]; reflexivity.
Qed.

(** X10. Lines 9-18: a history of up to 10000 bars that all close at one price
    [c] (any price with [c / c = 1], that is any finite price other than
    zero) scores exactly 0.0: every return is zero, so the volatility is
    zero and the guard of line 18 answers instead of the division. A
    candidate with such a history of at least 20 bars is stored with score
    0.0. *)
Theorem flat_history_scores_zero (c : float) (n : nat) :
  (c / c)%float = 1%float ->
  n <= 100 * 100 ->
  calculate_sharpe_ratio (HistFrame (repeat c n)) = inr 0%float /\
  forall w f ak_symbol st,
    fund_etf_hist_sina w ak_symbol "qfq" = inr (HistFrame (repeat c n)) ->
    20 <= n ->
    result_data (snd (score_candidate w f ak_symbol st)) =
    result_data st ++
    [mkRiskScore (f_symbol f) (f_name f) (f_price f) (f_change f)
       (f_turnover f) 0%float].
Proof.
  intros Hc Hn.
  assert (Hcalc : calculate_sharpe_ratio (HistFrame (repeat c n)) = inr 0%float).
  { rewrite calculate_sharpe_ratio_cases. cbn zeta. rewrite (returns_of_flat n Hc).
    rewrite repeat_length.
    destruct (n - 1 <? 10) eqn:E; [reflexivity|].
    apply Nat.ltb_ge in E. rewrite volatility_zeros by lia. reflexivity. }
  split; [exact Hcalc|].
  intros w f ak_symbol st Hh Hbars.
  rewrite score_candidate_unfold, Hh. cbn [len]. rewrite repeat_length.
  apply Nat.ltb_ge in Hbars. rewrite Hbars, Hcalc. reflexivity.
Qed.

Lemma flat_history_scores_zero_witness :
  (2.5 / 2.5)%float = 1%float /\
  calculate_sharpe_ratio (HistFrame (repeat 2.5%float 25)) = inr 0%float.
Proof.
  assert (Hc : (2.5 / 2.5)%float = 1%float) by reflexivity.
  split; [exact Hc|].
  apply (@flat_history_scores_zero 2.5%float 25 Hc). cbn. lia.
Defined.

(* ================================================================== *)
(** ** What a run depends on *)
(* ================================================================== *)

(** X11. Lines 49-50: the exchange prefix loses nothing of the symbol; two
    symbols are requested under the same name only when they are equal. *)
Theorem ak_symbol_is_injective (s1 s2 : string) :
  ak_symbol_of s1 = ak_symbol_of s2 -> s1 = s2.
Proof.
  unfold ak_symbol_of.
  destruct (startswith s1 "5"), (startswith s2 "5"); cbn; intros H;
    injection H as H; first [exact H | discriminate H].
Qed.

Lemma ak_symbol_is_injective_witness :
  ak_symbol_of "510300" = ak_symbol_of (strip " 510300 ") /\
  "510300"%string = strip " 510300 ".
Proof.
  assert (H : ak_symbol_of "510300" = ak_symbol_of (strip " 510300 "))
    by (vm_compute; reflexivity).
  split; [exact H | exact (ak_symbol_is_injective _ _ H)].
Defined.

(** An iteration reads the provider at the request of its row only. *)
Lemma candidate_body_agree (w w' : Provider) (row : Row) (st : State) :
  fund_etf_hist_sina w (fst (request_of row)) "qfq" =
  fund_etf_hist_sina w' (fst (request_of row)) "qfq" ->
  candidate_body w row st = candidate_body w' row st.
Proof.
  intros H. rewrite !candidate_body_unfold.
  destruct (extract_fields row) as [e|f] eqn:E; [reflexivity|].
  rewrite !score_candidate_unfold.
  unfold request_of in H. cbn [fst] in H.
  rewrite <- (extract_fields_symbol _ E) in H. rewrite H. reflexivity.
Qed.

Lemma for_each_agree (w w' : Provider) (rows : list Row) (st : State) :
  (forall row, In row rows ->
     fund_etf_hist_sina w (fst (request_of row)) "qfq" =
     fund_etf_hist_sina w' (fst (request_of row)) "qfq") ->
  for_each (candidate_body w) rows st = for_each (candidate_body w') rows st.
Proof.
  revert st. induction rows as [|row t IH]; intros st H; [reflexivity|].
  rewrite !for_each_cons.
  rewrite (candidate_body_agree w w' row st) by (apply H; now left).
  destruct (candidate_body w' row st) as [[e|u] st1]; [reflexivity|].
  apply IH. intros r Hr. apply H. now right.
Qed.

(** X13. Lines 23-86: a run depends on the provider through the snapshot, the
    clock and the histories of its candidates only. Two providers that agree
    on these give the same envelope, the same printed lines and the same
    requests: the history of a row that failed the filter or was cut by
    [head(50)] is never read. *)
Theorem run_reads_candidate_histories_only (sv : SortValues) (w w' : Provider) :
  fund_etf_category_sina w = fund_etf_category_sina w' ->
  now_strftime w = now_strftime w' ->
  (forall etf_basic row,
     fund_etf_category_sina w = inr etf_basic ->
     In row (candidate_etfs_of sv (valid_etfs_of etf_basic)) ->
     fund_etf_hist_sina w (fst (request_of row)) "qfq" =
     fund_etf_hist_sina w' (fst (request_of row)) "qfq") ->
  run_fetch sv w = run_fetch sv w'.
Proof.
  intros Hu Hnow Hh. rewrite !run_fetch_cases, <- Hu, <- Hnow.
  destruct (fund_etf_category_sina w) as [e|etf_basic]; [reflexivity|].
  destruct (empty etf_basic); [reflexivity|]. cbn zeta.
  destruct (empty (candidate_etfs_of sv (valid_etfs_of etf_basic))); [reflexivity|].
  rewrite (for_each_agree w w' _ init_state
             (fun row Hrow => Hh etf_basic row eq_refl Hrow)).
  reflexivity.
Qed.

(** The mixed provider, except that it fails for 159001. *)
Definition mixed_provider_but_159001 (universe : DataFrame) : Provider :=
  mkProvider (inr universe)
    (fun symbol adjust =>
       if String.eqb symbol "sz159001" then inl (ProviderError "no such fund")
       else fund_etf_hist_sina (mixed_provider universe) symbol adjust)
    clock.

Lemma run_reads_candidate_histories_only_witness :
  fund_etf_hist_sina (mixed_provider [etf_a; etf_c; etf_d]) "sz159001" "qfq" <>
  fund_etf_hist_sina (mixed_provider_but_159001 [etf_a; etf_c; etf_d]) "sz159001" "qfq" /\
  run_fetch stable_sort (mixed_provider [etf_a; etf_c; etf_d]) =
  run_fetch stable_sort (mixed_provider_but_159001 [etf_a; etf_c; etf_d]).
Proof.
  split; [vm_compute; discriminate|].
  apply run_reads_candidate_histories_only.
  - reflexivity.
  - reflexivity.
  - intros etf_basic row Hb Hrow. injection Hb as <-.
    vm_compute in Hrow.
    repeat (destruct Hrow as [<-|Hrow]; [vm_compute; reflexivity|]).
    contradiction.
Defined.
